(** * CDC-ECM (Ethernet over USB) framing of imx-usbnet

    A shallow embedding of [cdc_ecm.go]: the [NIC] structure, its
    initialisation and the two bulk endpoint functions [ECMRx] (OUT, host to
    device) and [ECMTx] (IN, device to host), followed by the properties of
    the frame reassembly and transmission that they implement.

    Go values are modelled as follows.
    - [[]byte] is [list byte] (8-bit [Byte.byte]); [len] is [length].
    - [int], [uint16] and [tcpip.NetworkProtocolNumber] (a [uint32]) are [Z],
      with every narrowing conversion written out.
    - [error] is [option string], [nil] being [None].
    - a run-time panic (slice bounds, nil dereference) is the [Panic] outcome
      of the [result] monad; a function that returns normally yields [Ret].
    - the gVisor channel endpoint behind [NIC.Link] is external to the
      package: it is modelled by the two queues that the driver observes,
      the packets handed to [InjectInbound] and the packets pending for
      [Read]. *)

From Stdlib Require Import String ZArith List Bool Lia.
From Stdlib.Strings Require Import Byte.
Import ListNotations.

Local Open Scope Z_scope.

(** ** Outcome of a Go call: normal return or panic *)

Inductive result (A : Type) : Type :=
| Ret (a : A)
| Panic (msg : string).

Arguments Ret {A} a.
Arguments Panic {A} msg.

Definition bind {A B : Type} (m : result A) (k : A -> result B) : result B :=
  match m with
  | Ret a => k a
  | Panic msg => Panic msg
  end.

Notation "x <- m ;; k" := (bind m (fun x => k))
  (at level 61, m at next level, right associativity).
Notation "' p <- m ;; k" := (bind m (fun x => match x with p => k end))
  (at level 61, p pattern, m at next level, right associativity).

(** Go's [error] interface value. *)
Definition error : Type := option string.

(** ** Integer conversions *)

(** [byte(v)]: conversion of an unsigned integer to [uint8]. *)
Definition byte_of_Z (v : Z) : byte :=
  match Byte.of_N (Z.to_N (v mod 256)) with
  | Some b => b
  | None => x00
  end.

(** [uint16(b)] for a byte [b] (also [uint32(b)], [int(b)]). *)
Definition byte_to_Z (b : byte) : Z := Z.of_N (Byte.to_N b).

(** [uint16(v)]: conversion of an unsigned integer to 16 bits. *)
Definition uint16 (v : Z) : Z := v mod 65536.

(** ** Slices *)

(** [make([]byte, n)] *)
Definition make (n : nat) : list byte := repeat x00 n.

(** [s[lo:hi]].  The bounds are checked against [len s].  Go checks [hi]
    against [cap s]; in [ECMRx] the three slice expressions are evaluated on
    the same buffer before any effect and the last one, [buf[14:]], has
    [hi = len buf], so the call panics exactly when [len buf < 14] under
    either check. *)
Definition slice (s : list byte) (lo hi : nat) : result (list byte) :=
  if (lo <=? hi)%nat && (hi <=? length s)%nat
  then Ret (firstn (hi - lo) (skipn lo s))
  else Panic "slice bounds out of range".

(** [s[lo:]] *)
Definition slice_from (s : list byte) (lo : nat) : result (list byte) :=
  slice s lo (length s).

(** ** encoding/binary, big endian *)

Module BigEndian.

(** [binary.BigEndian.Uint16(b)]:
    [uint16(b[1]) | uint16(b[0])<<8], after the bounds check [_ = b[1]]. *)
Definition Uint16 (b : list byte) : result Z :=
  match b with
  | b0 :: b1 :: _ => Ret (Z.lor (byte_to_Z b1) (Z.shiftl (byte_to_Z b0) 8))
  | _ => Panic "index out of range"
  end.

(** [binary.BigEndian.PutUint16(b, v)]:
    [b[0] = byte(v >> 8); b[1] = byte(v)], after the same bounds check. *)
Definition PutUint16 (b : list byte) (v : Z) : result (list byte) :=
  match b with
  | _ :: _ :: rest => Ret (byte_of_Z (Z.shiftr v 8) :: byte_of_Z v :: rest)
  | _ => Panic "index out of range"
  end.

End BigEndian.

(** ** gVisor packet buffers and the channel endpoint (external) *)

(** [stack.PacketBuffer]: the network protocol number recorded by the stack
    on outbound packets, the link header pushed into the reserved header
    bytes, and the views of the data buffer. *)
Record PacketBuffer : Type := mkPacketBuffer {
  NetworkProtocolNumber : Z;
  LinkHeader : list byte;
  Data : list (list byte)
}.

(** [buffer.MakeWithData(b)]: a buffer holding one view with a copy of [b],
    or no view when [b] is empty. *)
Definition MakeWithData (b : list byte) : list (list byte) :=
  match b with
  | [] => []
  | _ => [b]
  end.

(** [stack.NewPacketBuffer(stack.PacketBufferOptions{ReserveHeaderBytes,
    Payload})] *)
Definition NewPacketBuffer (ReserveHeaderBytes : nat)
    (Payload : list (list byte)) : PacketBuffer :=
  {| NetworkProtocolNumber := 0; LinkHeader := []; Data := Payload |}.

(** [copy(pkt.LinkHeader().Push(n), hdr)]: [Push] hands out [n] of the
    reserved header bytes, [copy] fills them with the first [n] bytes of
    [hdr]. *)
Definition PushLinkHeader (pkt : PacketBuffer) (n : nat) (hdr : list byte)
    : PacketBuffer :=
  {| NetworkProtocolNumber := NetworkProtocolNumber pkt;
     LinkHeader := firstn n hdr;
     Data := Data pkt |}.

(** [pkt.AsSlices()]: the bytes of the packet as a sequence of slices, the
    pushed header (if any) first. *)
Definition AsSlices (pkt : PacketBuffer) : list (list byte) :=
  match LinkHeader pkt with
  | [] => Data pkt
  | h => h :: Data pkt
  end.

(** The flattened data of a packet. *)
Definition Payload (pkt : PacketBuffer) : list byte := concat (Data pkt).

(** [channel.Endpoint], as the driver sees it: [inbound] records, oldest
    first, every [(protocol, packet)] handed to [InjectInbound]; [q] is the
    queue of packets written by the stack, next packet to [Read] first. *)
Record Endpoint : Type := mkEndpoint {
  inbound : list (Z * PacketBuffer);
  q : list PacketBuffer
}.

(** [e.InjectInbound(protocol, pkt)] on a [*channel.Endpoint]. *)
Definition InjectInbound (e : option Endpoint) (protocol : Z)
    (pkt : PacketBuffer) : result Endpoint :=
  match e with
  | None => Panic "nil pointer dereference"
  | Some e => Ret {| inbound := inbound e ++ [(protocol, pkt)]; q := q e |}
  end.

(** [e.Read()]: non-blocking receive from the queue; [None] is the nil
    packet ([pkt.IsNil()]). *)
Definition Read (e : option Endpoint)
    : result (option PacketBuffer * Endpoint) :=
  match e with
  | None => Panic "nil pointer dereference"
  | Some e =>
      match q e with
      | [] => Ret (None, e)
      | pkt :: rest => Ret (Some pkt, {| inbound := inbound e; q := rest |})
      end
  end.

(** ** The virtual Ethernet instance *)

(** The endpoint functions that the [Rx], [Tx] and [Control] fields can
    hold: one of the three methods below or a function of the caller. *)
Inductive EndpointFunction : Type :=
| fnECMRx
| fnECMTx
| fnECMControl
| fnCustom (id : nat).

Record NIC : Type := mkNIC {
  HostMAC : list byte;
  DeviceMAC : list byte;
  Link : option Endpoint;
  Rx : option EndpointFunction;
  Tx : option EndpointFunction;
  Control : option EndpointFunction;
  maxPacketSize : Z;
  buf : list byte
}.

Definition set_Link (eth : NIC) (l : Endpoint) : NIC :=
  mkNIC (HostMAC eth) (DeviceMAC eth) (Some l) (Rx eth) (Tx eth)
        (Control eth) (maxPacketSize eth) (buf eth).

Definition set_buf (eth : NIC) (b : list byte) : NIC :=
  mkNIC (HostMAC eth) (DeviceMAC eth) (Link eth) (Rx eth) (Tx eth)
        (Control eth) (maxPacketSize eth) b.

Definition set_maxPacketSize (eth : NIC) (n : Z) : NIC :=
  mkNIC (HostMAC eth) (DeviceMAC eth) (Link eth) (Rx eth) (Tx eth)
        (Control eth) n (buf eth).

Definition set_functions (eth : NIC) (rx tx ctl : option EndpointFunction)
    : NIC :=
  mkNIC (HostMAC eth) (DeviceMAC eth) (Link eth) rx tx ctl
        (maxPacketSize eth) (buf eth).

Definition default_to (f : EndpointFunction) (o : option EndpointFunction)
    : option EndpointFunction :=
  match o with
  | None => Some f
  | Some g => Some g
  end.

(** [addDataInterfaces(device, eth)], restricted to its effect on the NIC:
    [eth.maxPacketSize = int(MaxPacketSize)], where [MaxPacketSize] is the
    package variable (512 unless the application changes it).  The variable
    is a [uint16]: it is passed here as a [Z] and read through [uint16].
    The descriptors added to the USB device are outside this model. *)
Definition addDataInterfaces (MaxPacketSize : Z) (eth : NIC) : NIC :=
  set_maxPacketSize eth (uint16 MaxPacketSize).

(** [eth.Init()] *)
Definition Init (MaxPacketSize : Z) (eth : NIC) : NIC * error :=
  match Link eth with
  | None => (eth, Some "missing link endpoint"%string)
  | Some _ =>
      if negb (length (HostMAC eth) =? 6)%nat
         || negb (length (DeviceMAC eth) =? 6)%nat
      then (eth, Some "invalid MAC address"%string)
      else
        let eth := set_functions eth (default_to fnECMRx (Rx eth))
                     (default_to fnECMTx (Tx eth))
                     (default_to fnECMControl (Control eth)) in
        let eth := addDataInterfaces MaxPacketSize eth in
        (eth, None)
  end.

(** [eth.ECMControl(_, lastErr)] *)
Definition ECMControl (eth : NIC) (_ : list byte) (lastErr : error)
    : result (NIC * (list byte * error)) :=
  Ret (eth, ([], None)).

(** [eth.ECMRx(out, lastErr)]: the endpoint 1 OUT function. *)
Definition ECMRx (eth : NIC) (out : list byte) (lastErr : error)
    : result (NIC * (list byte * error)) :=
  if (length (buf eth) =? 0)%nat && (length out <? 14)%nat
  then Ret (eth, ([], None))
  else
    let eth := set_buf eth (buf eth ++ out) in
    if Z.of_nat (length out) =? maxPacketSize eth
    then Ret (eth, ([], None))
    else
      hdr <- slice (buf eth) 0 14 ;;
      b <- slice (buf eth) 12 14 ;;
      proto <- BigEndian.Uint16 b ;;
      payload <- slice_from (buf eth) 14 ;;
      let pkt := NewPacketBuffer (length hdr) (MakeWithData payload) in
      let pkt := PushLinkHeader pkt (length hdr) hdr in
      link <- InjectInbound (Link eth) proto pkt ;;
      let eth := set_Link eth link in
      let eth := set_buf eth [] in
      Ret (eth, ([], None)).

(** [eth.ECMTx(_, lastErr)]: the endpoint 1 IN function. *)
Definition ECMTx (eth : NIC) (_ : list byte) (lastErr : error)
    : result (NIC * (list byte * error)) :=
  '(pkt, link) <- Read (Link eth) ;;
  let eth := set_Link eth link in
  match pkt with
  | None => Ret (eth, ([], None))
  | Some pkt =>
      proto <- BigEndian.PutUint16 (make 2)
                 (uint16 (NetworkProtocolNumber pkt)) ;;
      let in_ := [] ++ HostMAC eth in
      let in_ := in_ ++ DeviceMAC eth in
      let in_ := in_ ++ proto in
      let in_ := fold_left (fun acc v => acc ++ v) (AsSlices pkt) in_ in
      Ret (eth, (in_, None))
  end.

(** ** Sequences of transfers *)

(** The endpoint 1 OUT function called once per completed transfer, in
    arrival order, with no transfer error.  A panic ends the run. *)
Fixpoint receive (eth : NIC) (transfers : list (list byte)) : result NIC :=
  match transfers with
  | [] => Ret eth
  | out :: rest => '(eth', _) <- ECMRx eth out None ;; receive eth' rest
  end.

(** The packets handed to the link endpoint so far. *)
Definition injected (eth : NIC) : list (Z * PacketBuffer) :=
  match Link eth with
  | Some l => inbound l
  | None => []
  end.

(** The link endpoint after one more [InjectInbound]. *)
Definition inject (l : Endpoint) (p : Z * PacketBuffer) : Endpoint :=
  {| inbound := inbound l ++ [p]; q := q l |}.

(** The 16-bit big-endian value at bytes 12-13 of a frame. *)
Definition ethertype (frame : list byte) : Z :=
  256 * byte_to_Z (nth 12 frame x00) + byte_to_Z (nth 13 frame x00).

(** The protocol number and packet that [ECMRx] injects for an accumulated
    frame of at least 14 bytes. *)
Definition inbound_packet (frame : list byte) : Z * PacketBuffer :=
  (ethertype frame,
   {| NetworkProtocolNumber := 0;
      LinkHeader := firstn 14 frame;
      Data := MakeWithData (skipn 14 frame) |}).

(** The CDC-ECM completion rule on a sequence of transfers carrying one
    frame: every transfer but the last is exactly [mps] bytes long, the last
    one is shorter (possibly zero-length). *)
Fixpoint terminated (mps : Z) (transfers : list (list byte)) : bool :=
  match transfers with
  | [] => false
  | [last] => Z.of_nat (length last) <? mps
  | out :: rest => (Z.of_nat (length out) =? mps) && terminated mps rest
  end.

(** The USB transport (an external collaborator) splits a frame into
    transfers of [mps] bytes followed by a shorter, possibly zero-length,
    one.  [fuel] bounds the number of full transfers. *)
Fixpoint split_transfers (fuel mps : nat) (frame : list byte)
    : list (list byte) :=
  match fuel with
  | O => [frame]
  | S fuel' =>
      if (length frame <? mps)%nat then [frame]
      else firstn mps frame :: split_transfers fuel' mps (skipn mps frame)
  end.

Definition transfers (mps : Z) (frame : list byte) : list (list byte) :=
  split_transfers (length frame) (Z.to_nat mps) frame.

(** ** States of an initialised interface *)

(** The invariant of a NIC in service: [Init] has accepted it (link
    endpoint present, 6-byte MAC addresses) and the reassembly buffer is
    empty or holds at least a link-layer header. *)
Definition operational (eth : NIC) : bool :=
  match Link eth with Some _ => true | None => false end
  && (length (HostMAC eth) =? 6)%nat
  && (length (DeviceMAC eth) =? 6)%nat
  && ((length (buf eth) =? 0)%nat || (14 <=? length (buf eth))%nat).

(** The states a NIC goes through: a freshly built structure (empty buffer)
    accepted by [Init], then any interleaving of endpoint function calls and
    of packets queued by the network stack for transmission. *)
Inductive reachable : NIC -> Prop :=
| reach_Init (MaxPacketSize : Z) (eth0 eth : NIC) :
    buf eth0 = [] ->
    Init MaxPacketSize eth0 = (eth, None) ->
    reachable eth
| reach_ECMRx (eth eth' : NIC) (out : list byte) (lastErr : error)
    (r : list byte * error) :
    reachable eth ->
    ECMRx eth out lastErr = Ret (eth', r) ->
    reachable eth'
| reach_ECMTx (eth eth' : NIC) (inp : list byte) (lastErr : error)
    (r : list byte * error) :
    reachable eth ->
    ECMTx eth inp lastErr = Ret (eth', r) ->
    reachable eth'
| reach_write (eth : NIC) (l : Endpoint) (pkt : PacketBuffer) :
    reachable eth ->
    Link eth = Some l ->
    reachable (set_Link eth {| inbound := inbound l; q := q l ++ [pkt] |}).

(** ** Concrete interfaces used in the examples *)

(** 1a:55:89:a2:69:41 and 1a:55:89:a2:69:42 *)
Definition hostMAC : list byte := [x1a; x55; x89; xa2; x69; x41].
Definition deviceMAC : list byte := [x1a; x55; x89; xa2; x69; x42].

(** A NIC structure as the package builds it, around a link endpoint whose
    outbound queue holds [pending]. *)
Definition new_nic (pending : list PacketBuffer) : NIC :=
  {| HostMAC := hostMAC; DeviceMAC := deviceMAC;
     Link := Some {| inbound := []; q := pending |};
     Rx := None; Tx := None; Control := None;
     maxPacketSize := 0; buf := [] |}.

(** The same NIC after [Init] with the given [MaxPacketSize]. *)
Definition nic (MaxPacketSize : Z) (pending : list PacketBuffer) : NIC :=
  fst (Init MaxPacketSize (new_nic pending)).

(** An outbound packet of the stack: protocol number and data views. *)
Definition outbound (proto : Z) (views : list (list byte)) : PacketBuffer :=
  {| NetworkProtocolNumber := proto; LinkHeader := []; Data := views |}.

(** [n] bytes, all equal to [b]. *)
Definition bytes (n : nat) (b : byte) : list byte := repeat b n.

(** A 14-byte Ethernet header with ethertype 0x0800. *)
Definition header_ipv4 : list byte := hostMAC ++ deviceMAC ++ [x08; x00].


(** ** Runs of the IN endpoint and observations on the link *)

(** The packets that the stack has queued and [ECMTx] has not read yet. *)
Definition pending (eth : NIC) : list PacketBuffer :=
  match Link eth with
  | Some l => q l
  | None => []
  end.

(** The frame that [ECMTx] builds for a packet: header, then the slices. *)
Definition outbound_frame (eth : NIC) (pkt : PacketBuffer) : list byte :=
  HostMAC eth ++ DeviceMAC eth
    ++ [byte_of_Z (NetworkProtocolNumber pkt / 256);
        byte_of_Z (NetworkProtocolNumber pkt)]
    ++ concat (AsSlices pkt).

(** The endpoint 1 IN function polled [n] times, with no transfer error;
    the results of the calls are collected in order. *)
Fixpoint transmit (eth : NIC) (n : nat) : result (NIC * list (list byte)) :=
  match n with
  | O => Ret (eth, [])
  | S n' =>
      '(eth1, (frame, _)) <- ECMTx eth [] None ;;
      '(eth2, frames) <- transmit eth1 n' ;;
      Ret (eth2, frame :: frames)
  end.

(** The bytes of an injected packet: link header, then payload. *)
Definition packet_bytes (p : Z * PacketBuffer) : list byte :=
  LinkHeader (snd p) ++ Payload (snd p).

(** [without_short ts ks]: [ks] is [ts] with some of its chunks removed,
    every removed chunk being shorter than 14 bytes. *)
Inductive without_short : list (list byte) -> list (list byte) -> Prop :=
| without_short_nil : without_short [] []
| without_short_keep (out : list byte) (ts ks : list (list byte)) :
    without_short ts ks -> without_short (out :: ts) (out :: ks)
| without_short_drop (out : list byte) (ts ks : list (list byte)) :
    (length out < 14)%nat ->
    without_short ts ks -> without_short (out :: ts) ks.

(** ** Addresses and sockets ([usbnet.go], [runtime.go]) *)

(** [tcpip.FullAddress], with the two fields that the package sets. *)
Record FullAddress : Type := mkFullAddress {
  Addr : list byte;
  Port : Z
}.

(** [tcpip.FullAddress{}] *)
Definition FullAddress_zero : FullAddress := {| Addr := []; Port := 0 |}.

(** The calls into the gVisor [gonet] adapter with which [Socket] ends:
    [gonet.DialUDP(iface.Stack, &laddr, &raddr, proto)],
    [gonet.DialContextTCP(ctx, iface.Stack, addr, proto)] and
    [gonet.ListenTCP(iface.Stack, addr, proto)], with
    [proto = ipv4.ProtocolNumber]. *)
Inductive StackCall : Type :=
| DialUDP (laddr raddr : FullAddress)
| DialContextTCP (addr : FullAddress)
| ListenTCP (addr : FullAddress).

(** What [Socket] returns: the connection and error of a call into the
    stack, unchanged, or [nil] and an error of its own or of [fullAddr]. *)
Inductive SocketResult : Type :=
| FromStack (call : StackCall)
| SocketError (err : string).

Section Runtime.

(** The functions of the Go library and of gVisor that the package calls:
    [net.SplitHostPort], [strconv.Atoi], the conversion
    [tcpip.AddrFromSlice(net.ParseIP(host).To4())] of a host to an address,
    and the [syscall] constants. *)
Variable SplitHostPort : string -> string * string * error.
Variable Atoi : string -> Z * error.
Variable IPv4 : string -> list byte.
Variables AF_INET SOCK_DGRAM SOCK_STREAM : Z.

(** [fullAddr(a)] *)
Definition fullAddr (a : string) : FullAddress * error :=
  match SplitHostPort a with
  | (host, port, None) =>
      match Atoi port with
      | (_, Some err) => (FullAddress_zero, Some err)
      | (p, None) => ({| Addr := IPv4 host; Port := uint16 p |}, None)
      end
  | (_, _, Some _) => ({| Addr := IPv4 a; Port := uint16 0 |}, None)
  end.

(** An optional [net.Addr] ([None] is the nil interface, [Some a] an
    address whose [String()] is [a]) parsed as [Socket] does: a nil address
    leaves the zero [FullAddress]. *)
Definition optional_fullAddr (addr : option string) : FullAddress * error :=
  match addr with
  | Some a => fullAddr a
  | None => (FullAddress_zero, None)
  end.

(** [iface.Socket(ctx, network, family, sotype, laddr, raddr)] *)
Definition Socket (network : string) (family sotype : Z)
    (laddr raddr : option string) : SocketResult :=
  match optional_fullAddr laddr with
  | (_, Some err) => SocketError err
  | (lFullAddr, None) =>
      match optional_fullAddr raddr with
      | (_, Some err) => SocketError err
      | (rFullAddr, None) =>
          if negb (family =? AF_INET)
          then SocketError "unsupported address family"
          else if ((network =? "udp") || (network =? "udp4"))%string
          then
            if negb (sotype =? SOCK_DGRAM)
            then SocketError "unsupported socket type"
            else FromStack (DialUDP lFullAddr rFullAddr)
          else if ((network =? "tcp") || (network =? "tcp4"))%string
          then
            if negb (sotype =? SOCK_STREAM)
            then SocketError "unsupported socket type"
            else
              match raddr with
              | Some _ => FromStack (DialContextTCP rFullAddr)
              | None => FromStack (ListenTCP lFullAddr)
              end
          else SocketError "unsupported network"
      end
  end.

End Runtime.

(** Stand-ins for the library functions, enough to run the examples: they
    know the address 10.0.0.1 and the ports 80 and 65616. *)
Definition toy_SplitHostPort (a : string) : string * string * error :=
  if (a =? "10.0.0.1:80")%string then ("10.0.0.1", "80", None)%string
  else if (a =? "10.0.0.1:65616")%string
  then ("10.0.0.1", "65616", None)%string
  else if (a =? "10.0.0.1:http")%string
  then ("10.0.0.1", "http", None)%string
  else (""%string, ""%string, Some "missing port in address"%string).

Definition toy_Atoi (s : string) : Z * error :=
  if (s =? "80")%string then (80, None)
  else if (s =? "65616")%string then (65616, None)
  else (0, Some "invalid syntax"%string).

Definition toy_IPv4 (host : string) : list byte :=
  if (host =? "10.0.0.1")%string then [x0a; x00; x00; x01] else [].

(** * Properties *)

(** ** Bytes and 16-bit big-endian values *)

Lemma byte_to_Z_range (b : byte) : 0 <= byte_to_Z b < 256.
Proof.
  unfold byte_to_Z. pose proof (Byte.to_N_bounded b). lia.
Qed.

Lemma byte_to_of_Z (v : Z) : byte_to_Z (byte_of_Z v) = v mod 256.
Proof.
  unfold byte_to_Z, byte_of_Z.
  assert (Hr : 0 <= v mod 256 < 256) by (apply Z.mod_pos_bound; lia).
  pose proof (Byte.to_of_N_option_map (Z.to_N (v mod 256))) as H.
  destruct (Byte.of_N (Z.to_N (v mod 256))) as [b|] eqn:E.
  - apply Byte.to_of_N in E. rewrite E. lia.
  - simpl in H. destruct (N.leb_spec (Z.to_N (v mod 256)) 255).
    + discriminate.
    + lia.
Qed.

Lemma byte_of_to_Z (b : byte) : byte_of_Z (byte_to_Z b) = b.
Proof.
  unfold byte_of_Z.
  rewrite Z.mod_small by apply byte_to_Z_range.
  unfold byte_to_Z. rewrite N2Z.id, Byte.of_to_N. reflexivity.
Qed.

Lemma byte_of_Z_mod (v w : Z) : v mod 256 = w mod 256 -> byte_of_Z v = byte_of_Z w.
Proof.
  intros H. unfold byte_of_Z. rewrite H. reflexivity.
Qed.

(** [lo | hi<<8] on a low byte is [256 * hi + lo]. *)
Lemma lor_shiftl_8 (lo hi : Z) :
  0 <= lo < 256 -> 0 <= hi -> Z.lor lo (Z.shiftl hi 8) = 256 * hi + lo.
Proof.
  intros Hlo Hhi.
  rewrite Z.shiftl_mul_pow2 by lia.
  change (2 ^ 8) with 256.
  assert (Hland : Z.land lo (hi * 256) = 0).
  { apply Z.bits_inj'. intros n Hn.
    rewrite Z.land_spec, Z.bits_0.
    destruct (Z.ltb_spec n 8).
    + replace (hi * 256) with (hi * 2 ^ 8) by reflexivity.
      rewrite Z.mul_pow2_bits_low by lia. apply andb_false_r.
    + replace (Z.testbit lo n) with false; [reflexivity|].
      symmetry. apply Z.bits_above_log2; [lia|].
      destruct (Z.eq_dec lo 0) as [->|]; [simpl; lia|].
      apply Z.log2_lt_pow2; [lia|].
      apply Z.lt_le_trans with (2 ^ 8); [simpl; lia|].
      apply Z.pow_le_mono_r; lia. }
  rewrite <- Z.lxor_lor by exact Hland.
  rewrite <- Z.add_nocarry_lxor by exact Hland. lia.
Qed.

Lemma Uint16_bytes (b0 b1 : byte) (rest : list byte) :
  BigEndian.Uint16 (b0 :: b1 :: rest) = Ret (256 * byte_to_Z b0 + byte_to_Z b1).
Proof.
  unfold BigEndian.Uint16. f_equal.
  apply lor_shiftl_8; apply byte_to_Z_range.
Qed.

Lemma PutUint16_uint16 (v : Z) :
  BigEndian.PutUint16 (make 2) (uint16 v)
  = Ret [byte_of_Z (v / 256); byte_of_Z v].
Proof.
  unfold BigEndian.PutUint16, make, uint16. simpl repeat.
  rewrite Z.shiftr_div_pow2 by lia. change (2 ^ 8) with 256.
  f_equal. f_equal; [|f_equal]; apply byte_of_Z_mod;
    Z.to_euclidean_division_equations; lia.
Qed.

(** Writing a protocol number with [PutUint16] and reading it back with
    [Uint16] yields its low 16 bits. *)
Lemma Uint16_PutUint16 (v : Z) (rest : list byte) :
  BigEndian.Uint16 (byte_of_Z (v / 256) :: byte_of_Z v :: rest)
  = Ret (v mod 65536).
Proof.
  rewrite Uint16_bytes, !byte_to_of_Z. f_equal.
  Z.to_euclidean_division_equations. lia.
Qed.

(** ** Slices of a buffer that holds a header *)

Lemma slice_header (frame : list byte) :
  (14 <= length frame)%nat -> slice frame 0 14 = Ret (firstn 14 frame).
Proof.
  intros H. unfold slice.
  destruct (Nat.leb_spec 14 (length frame)); [reflexivity | lia].
Qed.

Lemma firstn_2_skipn (n : nat) (l : list byte) (d : byte) :
  (n + 2 <= length l)%nat ->
  firstn 2 (skipn n l) = [nth n l d; nth (S n) l d].
Proof.
  intros H.
  pose proof (length_skipn n l) as Hlen.
  pose proof (nth_skipn n l 0 d) as H0.
  pose proof (nth_skipn n l 1 d) as H1.
  rewrite Nat.add_0_r in H0. rewrite Nat.add_1_r in H1.
  destruct (skipn n l) as [|a [|b r]]; simpl in *; try lia.
  congruence.
Qed.

Lemma slice_ethertype (frame : list byte) :
  (14 <= length frame)%nat ->
  slice frame 12 14 = Ret [nth 12 frame x00; nth 13 frame x00].
Proof.
  intros H. unfold slice.
  destruct (Nat.leb_spec 14 (length frame)); [|lia].
  change (14 - 12)%nat with 2%nat.
  rewrite (firstn_2_skipn 12 frame x00) by lia. reflexivity.
Qed.

Lemma slice_from_payload (frame : list byte) :
  (14 <= length frame)%nat -> slice_from frame 14 = Ret (skipn 14 frame).
Proof.
  intros H. unfold slice_from, slice.
  destruct (Nat.leb_spec 14 (length frame)); [|lia].
  rewrite Nat.leb_refl. simpl andb. cbv iota.
  rewrite <- (length_skipn 14 frame), firstn_all. reflexivity.
Qed.

(** ** The three outcomes of one [ECMRx] call *)

(** Step 1: a short chunk on an empty buffer leaves the NIC untouched. *)
Lemma ECMRx_drop (eth : NIC) (out : list byte) (lastErr : error) :
  buf eth = [] -> (length out < 14)%nat ->
  ECMRx eth out lastErr = Ret (eth, ([], None)).
Proof.
  intros Hb Hl. unfold ECMRx. rewrite Hb. simpl length.
  destruct (Nat.ltb_spec (length out) 14); [reflexivity | lia].
Qed.

Lemma not_dropped (eth : NIC) (out : list byte) :
  buf eth <> [] \/ (14 <= length out)%nat ->
  (length (buf eth) =? 0)%nat && (length out <? 14)%nat = false.
Proof.
  intros [Hb | Hl].
  - destruct (buf eth); [congruence | reflexivity].
  - destruct (Nat.ltb_spec (length out) 14); [lia | apply andb_false_r].
Qed.

(** Step 3: a chunk of exactly [maxPacketSize] bytes is appended and kept. *)
Lemma ECMRx_defer (eth : NIC) (out : list byte) (lastErr : error) :
  buf eth <> [] \/ (14 <= length out)%nat ->
  Z.of_nat (length out) = maxPacketSize eth ->
  ECMRx eth out lastErr = Ret (set_buf eth (buf eth ++ out), ([], None)).
Proof.
  intros Hnd Hm. unfold ECMRx. rewrite not_dropped by exact Hnd.
  simpl maxPacketSize. rewrite Hm, Z.eqb_refl. reflexivity.
Qed.

(** Step 4: any other chunk completes the frame, which is injected. *)
Lemma ECMRx_dispatch (eth : NIC) (l : Endpoint) (out : list byte)
    (lastErr : error) :
  Link eth = Some l ->
  buf eth <> [] \/ (14 <= length out)%nat ->
  (14 <= length (buf eth ++ out))%nat ->
  Z.of_nat (length out) <> maxPacketSize eth ->
  ECMRx eth out lastErr
  = Ret (set_buf (set_Link eth (inject l (inbound_packet (buf eth ++ out)))) [],
         ([], None)).
Proof.
  intros Hl Hnd Hlen Hm. unfold ECMRx. rewrite not_dropped by exact Hnd.
  simpl maxPacketSize.
  destruct (Z.eqb_spec (Z.of_nat (length out)) (maxPacketSize eth));
    [contradiction|].
  simpl buf.
  rewrite slice_header, slice_ethertype, slice_from_payload by exact Hlen.
  cbn [bind]. rewrite Uint16_bytes. cbn [bind].
  simpl Link. rewrite Hl. cbn [InjectInbound bind].
  unfold PushLinkHeader, NewPacketBuffer, inject, inbound_packet, ethertype.
  cbn [NetworkProtocolNumber Data]. rewrite firstn_all. reflexivity.
Qed.

(** With the buffer invariant, a chunk that is not dropped always leaves at
    least a header in the accumulated buffer. *)
Lemma accumulated_header (eth : NIC) (out : list byte) :
  operational eth = true ->
  buf eth <> [] \/ (14 <= length out)%nat ->
  (14 <= length (buf eth ++ out))%nat.
Proof.
  unfold operational. intros Hop Hnd. rewrite length_app.
  apply andb_prop in Hop. destruct Hop as [_ Hb].
  destruct Hnd as [Hne | Hl]; [|lia].
  apply orb_prop in Hb. destruct Hb as [Hz | Hge].
  - apply Nat.eqb_eq in Hz. destruct (buf eth); [congruence | discriminate].
  - apply Nat.leb_le in Hge. lia.
Qed.

Lemma operational_Link (eth : NIC) :
  operational eth = true -> exists l, Link eth = Some l.
Proof.
  unfold operational. intros H.
  destruct (Link eth) as [l|]; [eauto | discriminate].
Qed.

Lemma operational_MACs (eth : NIC) :
  operational eth = true ->
  length (HostMAC eth) = 6%nat /\ length (DeviceMAC eth) = 6%nat.
Proof.
  unfold operational. intros H.
  repeat (apply andb_prop in H; destruct H as [H ?]).
  split; apply Nat.eqb_eq; assumption.
Qed.

(** ** The invariant holds in every reachable state *)

Lemma operational_set_buf (eth : NIC) (b : list byte) :
  operational eth = true ->
  b = [] \/ (14 <= length b)%nat ->
  operational (set_buf eth b) = true.
Proof.
  unfold operational, set_buf. cbn [Link HostMAC DeviceMAC buf].
  intros H Hb.
  apply andb_prop in H. destruct H as [H _]. rewrite H.
  destruct Hb as [-> | Hb]; [reflexivity|].
  apply Nat.leb_le in Hb. rewrite Hb. rewrite orb_true_r. reflexivity.
Qed.

Lemma operational_set_Link (eth : NIC) (l : Endpoint) :
  operational eth = true -> operational (set_Link eth l) = true.
Proof.
  unfold operational. simpl. destruct (Link eth); [auto | discriminate].
Qed.

Lemma Init_operational (MaxPacketSize : Z) (eth0 eth : NIC) :
  buf eth0 = [] ->
  Init MaxPacketSize eth0 = (eth, None) ->
  operational eth = true.
Proof.
  unfold Init. intros Hb H.
  destruct (Link eth0) as [l|] eqn:Hl; [|discriminate].
  destruct (Nat.eqb_spec (length (HostMAC eth0)) 6) as [Hh|];
    [|discriminate].
  destruct (Nat.eqb_spec (length (DeviceMAC eth0)) 6) as [Hd|];
    [|discriminate].
  simpl in H. injection H as <-.
  unfold operational. simpl. rewrite Hl, Hh, Hd, Hb. reflexivity.
Qed.

(** One [ECMRx] call on a NIC in service never panics and takes one of the
    three branches. *)
Lemma ECMRx_cases (eth : NIC) (out : list byte) (lastErr : error) :
  operational eth = true ->
  (buf eth = [] /\ (length out < 14)%nat /\
   ECMRx eth out lastErr = Ret (eth, ([], None)))
  \/ ((buf eth <> [] \/ (14 <= length out)%nat) /\
      Z.of_nat (length out) = maxPacketSize eth /\
      ECMRx eth out lastErr = Ret (set_buf eth (buf eth ++ out), ([], None)))
  \/ ((buf eth <> [] \/ (14 <= length out)%nat) /\
      Z.of_nat (length out) <> maxPacketSize eth /\
      exists l, Link eth = Some l /\
        ECMRx eth out lastErr
        = Ret (set_buf (set_Link eth
                 (inject l (inbound_packet (buf eth ++ out)))) [],
               ([], None))).
Proof.
  intros Hop.
  assert (Hcase : (buf eth = [] /\ (length out < 14)%nat)
                  \/ (buf eth <> [] \/ (14 <= length out)%nat)).
  { destruct (buf eth) as [|b r].
    - destruct (Nat.lt_ge_cases (length out) 14); auto.
    - right. left. discriminate. }
  destruct Hcase as [[Hb Hl] | Hnd].
  - left. auto using ECMRx_drop.
  - right.
    destruct (Z.eq_dec (Z.of_nat (length out)) (maxPacketSize eth)) as [E|N].
    + left. auto using ECMRx_defer.
    + right. destruct (operational_Link eth Hop) as [l Hl].
      repeat split; try assumption. exists l. split; [assumption|].
      apply ECMRx_dispatch; auto using accumulated_header.
Qed.

Lemma ECMRx_operational (eth : NIC) (out : list byte) (lastErr : error) :
  operational eth = true ->
  exists eth', ECMRx eth out lastErr = Ret (eth', ([], None))
               /\ operational eth' = true.
Proof.
  intros Hop.
  destruct (ECMRx_cases eth out lastErr Hop)
    as [(_ & _ & E) | [(Hnd & _ & E) | (_ & _ & l & _ & E)]];
    rewrite E; eexists; split; try reflexivity.
  - assumption.
  - apply operational_set_buf; [assumption|].
    right. auto using accumulated_header.
  - apply operational_set_buf; [|auto].
    apply operational_set_Link. assumption.
Qed.

(** The range loop of [ECMTx] appends the slices in order. *)
Lemma append_slices (vs : list (list byte)) (acc : list byte) :
  fold_left (fun acc v => acc ++ v) vs acc = acc ++ concat vs.
Proof.
  revert acc. induction vs as [|v vs IH]; intros acc; simpl.
  - symmetry. apply app_nil_r.
  - rewrite IH, app_assoc. reflexivity.
Qed.

(** The outcome of [ECMTx] on a NIC whose link endpoint is [l]. *)
Lemma ECMTx_unfold (eth : NIC) (l : Endpoint) (inp : list byte)
    (lastErr : error) :
  Link eth = Some l ->
  ECMTx eth inp lastErr
  = match q l with
    | [] => Ret (set_Link eth l, ([], None))
    | pkt :: rest =>
        Ret (set_Link eth {| inbound := inbound l; q := rest |},
             (HostMAC eth ++ DeviceMAC eth
                ++ [byte_of_Z (NetworkProtocolNumber pkt / 256);
                    byte_of_Z (NetworkProtocolNumber pkt)]
                ++ concat (AsSlices pkt),
              None))
    end.
Proof.
  intros Hl. unfold ECMTx. rewrite Hl. unfold Read.
  destruct (q l) as [|pkt rest]; cbn [bind]; [reflexivity|].
  rewrite PutUint16_uint16. cbn [bind].
  rewrite append_slices. cbn [HostMAC DeviceMAC set_Link app].
  rewrite <- !app_assoc. reflexivity.
Qed.

Lemma ECMTx_operational (eth eth' : NIC) (inp : list byte) (lastErr : error)
    (r : list byte * error) :
  operational eth = true ->
  ECMTx eth inp lastErr = Ret (eth', r) ->
  operational eth' = true.
Proof.
  intros Hop H. destruct (operational_Link eth Hop) as [l Hl].
  rewrite (ECMTx_unfold eth l inp lastErr Hl) in H.
  destruct (q l); injection H as <- _; auto using operational_set_Link.
Qed.

(** Every state that a NIC goes through satisfies the invariant. *)
Lemma reachable_operational (eth : NIC) :
  reachable eth -> operational eth = true.
Proof.
  induction 1 as [mps eth0 eth Hb Hi
                 | eth eth' out e r _ IH Hrx
                 | eth eth' inp e r _ IH Htx
                 | eth l pkt _ IH Hl].
  - eauto using Init_operational.
  - destruct (ECMRx_operational eth out e IH) as (eth'' & E & Hop).
    rewrite E in Hrx. injection Hrx as <- _. assumption.
  - eauto using ECMTx_operational.
  - auto using operational_set_Link.
Qed.

(** ** The injected packet *)

Lemma concat_MakeWithData (b : list byte) : concat (MakeWithData b) = b.
Proof.
  destruct b; [reflexivity|]. unfold MakeWithData. simpl.
  rewrite app_nil_r. reflexivity.
Qed.

Lemma Payload_inbound_packet (frame : list byte) :
  Payload (snd (inbound_packet frame)) = skipn 14 frame.
Proof.
  unfold Payload, inbound_packet. simpl. apply concat_MakeWithData.
Qed.

(** ** Reassembly: one call *)

(** C1: on a NIC in service, a chunk that is not dropped (buffer non-empty
    or at least 14 bytes of chunk) and whose length differs from the maximum
    packet size completes the frame: exactly one packet is appended to the
    packets injected into the link endpoint, its protocol number is the
    big-endian 16-bit value at bytes 12-13 of the accumulated buffer, its
    payload is the accumulated buffer from byte 14 on, and the buffer is
    reset to empty.  A chunk of exactly the maximum packet size injects
    nothing and leaves the accumulated buffer in place. *)
Theorem C1_ECMRx_dispatch_or_defer (eth : NIC) (out : list byte)
    (lastErr : error) :
  operational eth = true ->
  buf eth <> [] \/ (14 <= length out)%nat ->
  (Z.of_nat (length out) <> maxPacketSize eth ->
   exists l proto pkt,
     Link eth = Some l /\
     ECMRx eth out lastErr
     = Ret (set_buf (set_Link eth
              {| inbound := inbound l ++ [(proto, pkt)]; q := q l |}) [],
            ([], None)) /\
     proto = 256 * byte_to_Z (nth 12 (buf eth ++ out) x00)
             + byte_to_Z (nth 13 (buf eth ++ out) x00) /\
     Payload pkt = skipn 14 (buf eth ++ out) /\
     LinkHeader pkt = firstn 14 (buf eth ++ out))
  /\ (Z.of_nat (length out) = maxPacketSize eth ->
      ECMRx eth out lastErr = Ret (set_buf eth (buf eth ++ out), ([], None))).
Proof.
  intros Hop Hnd. split; intros Hm.
  - destruct (operational_Link eth Hop) as [l Hl].
    exists l, (fst (inbound_packet (buf eth ++ out))),
      (snd (inbound_packet (buf eth ++ out))).
    split; [exact Hl|]. split.
    + apply ECMRx_dispatch; auto using accumulated_header.
    + split; [reflexivity|]. split; [|reflexivity].
      apply Payload_inbound_packet.
  - apply ECMRx_defer; assumption.
Qed.

(** A complete 17-byte frame received in one short transfer. *)
Lemma C1_witness :
  exists l proto pkt,
    Link (nic 512 []) = Some l /\
    ECMRx (nic 512 []) (header_ipv4 ++ [x01; x02; x03]) None
    = Ret (set_buf (set_Link (nic 512 [])
             {| inbound := inbound l ++ [(proto, pkt)]; q := q l |}) [],
           ([], None)) /\
    proto = 256 * byte_to_Z (nth 12 (buf (nic 512 [])
                                     ++ header_ipv4 ++ [x01; x02; x03]) x00)
            + byte_to_Z (nth 13 (buf (nic 512 [])
                                 ++ header_ipv4 ++ [x01; x02; x03]) x00) /\
    Payload pkt = skipn 14 (buf (nic 512 [])
                            ++ header_ipv4 ++ [x01; x02; x03]) /\
    LinkHeader pkt = firstn 14 (buf (nic 512 [])
                                ++ header_ipv4 ++ [x01; x02; x03]).
Proof.
  apply (C1_ECMRx_dispatch_or_defer (nic 512 [])
           (header_ipv4 ++ [x01; x02; x03]) None).
  - reflexivity.
  - right. simpl. lia.
  - vm_compute. discriminate.
Defined.

(** C10: a chunk strictly longer than the maximum packet size, when it is
    not dropped, never defers: the accumulated buffer is dispatched at once
    as a completed frame and the buffer is reset. *)
Theorem C10_ECMRx_oversized_chunk (eth : NIC) (out : list byte)
    (lastErr : error) :
  operational eth = true ->
  buf eth <> [] \/ (14 <= length out)%nat ->
  maxPacketSize eth < Z.of_nat (length out) ->
  exists l eth',
    Link eth = Some l /\
    ECMRx eth out lastErr = Ret (eth', ([], None)) /\
    buf eth' = [] /\
    injected eth'
    = injected eth
      ++ [(ethertype (buf eth ++ out),
           {| NetworkProtocolNumber := 0;
              LinkHeader := firstn 14 (buf eth ++ out);
              Data := MakeWithData (skipn 14 (buf eth ++ out)) |})].
Proof.
  intros Hop Hnd Hlt.
  destruct (operational_Link eth Hop) as [l Hl].
  exists l. eexists. split; [exact Hl|]. split.
  - apply (ECMRx_dispatch eth l); auto using accumulated_header. lia.
  - split; [reflexivity|].
    unfold injected. simpl. rewrite Hl. reflexivity.
Qed.

(** A 20-byte chunk on an interface whose maximum packet size is 16. *)
Lemma C10_witness :
  exists l eth',
    Link (nic 16 []) = Some l /\
    ECMRx (nic 16 []) (header_ipv4 ++ bytes 6 xff) None
    = Ret (eth', ([], None)) /\
    buf eth' = [] /\
    injected eth'
    = injected (nic 16 [])
      ++ [(ethertype (buf (nic 16 []) ++ header_ipv4 ++ bytes 6 xff),
           {| NetworkProtocolNumber := 0;
              LinkHeader :=
                firstn 14 (buf (nic 16 []) ++ header_ipv4 ++ bytes 6 xff);
              Data :=
                MakeWithData
                  (skipn 14 (buf (nic 16 []) ++ header_ipv4 ++ bytes 6 xff))
           |})].
Proof.
  apply (C10_ECMRx_oversized_chunk (nic 16 [])
           (header_ipv4 ++ bytes 6 xff) None).
  - reflexivity.
  - right. simpl. lia.
  - vm_compute. reflexivity.
Defined.

(** C2: on a NIC in service with an empty buffer and a maximum packet size
    of at least 14, a chunk of exactly the maximum packet size injects
    nothing and a following zero-length chunk injects exactly one packet,
    whose payload is the chunk without its 14-byte header, of length
    maximum packet size minus 14. *)
Theorem C2_max_size_then_zero_length (eth : NIC) (chunk : list byte)
    (e1 e2 : error) :
  operational eth = true ->
  buf eth = [] ->
  14 <= maxPacketSize eth ->
  Z.of_nat (length chunk) = maxPacketSize eth ->
  exists eth1 eth2 proto pkt,
    ECMRx eth chunk e1 = Ret (eth1, ([], None)) /\
    injected eth1 = injected eth /\
    ECMRx eth1 [] e2 = Ret (eth2, ([], None)) /\
    injected eth2 = injected eth ++ [(proto, pkt)] /\
    buf eth2 = [] /\
    proto = ethertype chunk /\
    Payload pkt = skipn 14 chunk /\
    Z.of_nat (length (Payload pkt)) = maxPacketSize eth - 14.
Proof.
  intros Hop Hb Hmps Hlen.
  destruct (operational_Link eth Hop) as [l Hl].
  assert (H14 : (14 <= length chunk)%nat) by lia.
  exists (set_buf eth (buf eth ++ chunk)).
  exists (set_buf (set_Link (set_buf eth (buf eth ++ chunk))
            (inject l (inbound_packet ((buf eth ++ chunk) ++ [])))) []).
  exists (fst (inbound_packet chunk)), (snd (inbound_packet chunk)).
  split; [apply ECMRx_defer; auto|].
  split; [reflexivity|].
  split.
  - apply ECMRx_dispatch.
    + exact Hl.
    + left. simpl. rewrite Hb. simpl. destruct chunk; [simpl in H14; lia|].
      discriminate.
    + simpl. rewrite Hb, app_nil_r. exact H14.
    + simpl. lia.
  - rewrite Hb. simpl app. rewrite app_nil_r.
    split; [unfold injected; simpl; rewrite Hl; reflexivity|].
    split; [reflexivity|]. split; [reflexivity|].
    rewrite Payload_inbound_packet.
    split; [reflexivity|]. rewrite length_skipn. lia.
Qed.

(** A 16-byte chunk then a zero-length one, maximum packet size 16. *)
Lemma C2_witness :
  exists eth1 eth2 proto pkt,
    ECMRx (nic 16 []) (header_ipv4 ++ [x01; x02]) None
    = Ret (eth1, ([], None)) /\
    injected eth1 = injected (nic 16 []) /\
    ECMRx eth1 [] None = Ret (eth2, ([], None)) /\
    injected eth2 = injected (nic 16 []) ++ [(proto, pkt)] /\
    buf eth2 = [] /\
    proto = ethertype (header_ipv4 ++ [x01; x02]) /\
    Payload pkt = skipn 14 (header_ipv4 ++ [x01; x02]) /\
    Z.of_nat (length (Payload pkt)) = maxPacketSize (nic 16 []) - 14.
Proof.
  apply (C2_max_size_then_zero_length (nic 16 [])
           (header_ipv4 ++ [x01; x02]) None None).
  - reflexivity.
  - reflexivity.
  - vm_compute. discriminate.
  - reflexivity.
Defined.

(** ** Transmission: one call *)

Lemma set_Link_same (eth : NIC) (l : Endpoint) :
  Link eth = Some l -> set_Link eth l = eth.
Proof.
  destruct eth. simpl. intros ->. reflexivity.
Qed.

(** C3: on a NIC in service, [ECMTx] with an empty outbound queue returns
    an empty result and changes nothing; otherwise it removes exactly the
    packet at the head of the queue and returns one frame: the 14-byte
    header made of the 6-byte host MAC, the 6-byte device MAC and the
    packet's protocol number (converted to 16 bits) as two big-endian bytes,
    followed by the slices of the packet concatenated in order. *)
Theorem C3_ECMTx_frame (eth : NIC) (l : Endpoint) (inp : list byte)
    (lastErr : error) :
  operational eth = true ->
  Link eth = Some l ->
  match q l with
  | [] => ECMTx eth inp lastErr = Ret (eth, ([], None))
  | pkt :: rest =>
      exists hdr,
        ECMTx eth inp lastErr
        = Ret (set_Link eth {| inbound := inbound l; q := rest |},
               (hdr ++ concat (AsSlices pkt), None)) /\
        hdr = HostMAC eth ++ DeviceMAC eth
              ++ [byte_of_Z (NetworkProtocolNumber pkt / 256);
                  byte_of_Z (NetworkProtocolNumber pkt)] /\
        length (HostMAC eth) = 6%nat /\
        length (DeviceMAC eth) = 6%nat /\
        length hdr = 14%nat /\
        BigEndian.Uint16 (skipn 12 hdr)
        = Ret (uint16 (NetworkProtocolNumber pkt))
  end.
Proof.
  intros Hop Hl. rewrite (ECMTx_unfold eth l inp lastErr Hl).
  destruct (operational_MACs eth Hop) as [Hh Hd].
  destruct (q l) as [|pkt rest].
  - rewrite set_Link_same by exact Hl. reflexivity.
  - exists (HostMAC eth ++ DeviceMAC eth
            ++ [byte_of_Z (NetworkProtocolNumber pkt / 256);
                byte_of_Z (NetworkProtocolNumber pkt)]).
    split; [|split; [reflexivity|]].
    + rewrite <- !app_assoc. reflexivity.
    + split; [exact Hh|]. split; [exact Hd|]. split.
      * rewrite !length_app, Hh, Hd. reflexivity.
      * rewrite app_assoc, skipn_app, skipn_all2
          by (rewrite length_app, Hh, Hd; reflexivity).
        rewrite length_app, Hh, Hd.
        exact (Uint16_PutUint16 (NetworkProtocolNumber pkt) []).
Qed.

(** An IPv4 packet made of two slices is pending. *)
Lemma C3_witness :
  exists hdr,
    ECMTx (nic 512 [outbound 2048 [[x01; x02]; [x03]]]) [] None
    = Ret (set_Link (nic 512 [outbound 2048 [[x01; x02]; [x03]]])
             {| inbound := []; q := [] |},
           (hdr ++ concat (AsSlices (outbound 2048 [[x01; x02]; [x03]])),
            None)) /\
    hdr = hostMAC ++ deviceMAC ++ [byte_of_Z (2048 / 256); byte_of_Z 2048] /\
    length hostMAC = 6%nat /\
    length deviceMAC = 6%nat /\
    length hdr = 14%nat /\
    BigEndian.Uint16 (skipn 12 hdr) = Ret (uint16 2048).
Proof.
  apply (C3_ECMTx_frame (nic 512 [outbound 2048 [[x01; x02]; [x03]]])
           {| inbound := []; q := [outbound 2048 [[x01; x02]; [x03]]] |}
           [] None).
  - reflexivity.
  - reflexivity.
Defined.

(** ** Reassembly: sequences of transfers *)

Lemma receive_operational (eth : NIC) (ts : list (list byte)) :
  operational eth = true ->
  exists eth', receive eth ts = Ret eth' /\ operational eth' = true.
Proof.
  revert eth. induction ts as [|out rest IH]; intros eth Hop; simpl.
  - eauto.
  - destruct (ECMRx_operational eth out None Hop) as (eth1 & E & Hop1).
    rewrite E. cbn [bind]. auto.
Qed.

(** A frame delivered as transfers that follow the completion rule, the
    first of which is not dropped, is injected as one packet when its last
    transfer arrives. *)
Lemma receive_terminated (eth : NIC) (l : Endpoint) (ts : list (list byte)) :
  operational eth = true ->
  Link eth = Some l ->
  terminated (maxPacketSize eth) ts = true ->
  buf eth <> [] \/ (14 <= length (hd [] ts))%nat ->
  receive eth ts
  = Ret (set_buf (set_Link eth
           (inject l (inbound_packet (buf eth ++ concat ts)))) []).
Proof.
  revert eth. induction ts as [|out rest IH]; intros eth Hop Hl Ht Hnd.
  - discriminate.
  - destruct rest as [|next rest].
    + simpl in Ht. apply Z.ltb_lt in Ht.
      cbn [receive concat hd] in *. rewrite app_nil_r.
      rewrite (ECMRx_dispatch eth l out None Hl Hnd)
        by (auto using accumulated_header; lia).
      reflexivity.
    + change (terminated (maxPacketSize eth) (out :: next :: rest))
        with ((Z.of_nat (length out) =? maxPacketSize eth)
              && terminated (maxPacketSize eth) (next :: rest)) in Ht.
      apply andb_prop in Ht. destruct Ht as [Hm Ht].
      apply Z.eqb_eq in Hm. cbn [hd] in Hnd.
      change (receive eth (out :: next :: rest))
        with ('(eth', _) <- ECMRx eth out None ;;
              receive eth' (next :: rest)).
      rewrite (ECMRx_defer eth out None Hnd Hm). cbn [bind].
      rewrite (IH (set_buf eth (buf eth ++ out))).
      * cbn [concat]. simpl buf. rewrite <- app_assoc. reflexivity.
      * apply operational_set_buf; [exact Hop|].
        right. auto using accumulated_header.
      * exact Hl.
      * exact Ht.
      * left. simpl buf.
        pose proof (accumulated_header eth out Hop Hnd) as H14.
        destruct (buf eth ++ out); [simpl in H14; lia | discriminate].
Qed.

Lemma terminated_first (mps : Z) (ts : list (list byte)) :
  14 <= mps ->
  terminated mps ts = true ->
  (14 <= length (concat ts))%nat ->
  (14 <= length (hd [] ts))%nat.
Proof.
  intros Hmps Ht Hlen. destruct ts as [|out [|next rest]].
  - discriminate.
  - simpl in Hlen. rewrite app_nil_r in Hlen. exact Hlen.
  - change (terminated mps (out :: next :: rest))
      with ((Z.of_nat (length out) =? mps)
            && terminated mps (next :: rest)) in Ht.
    apply andb_prop in Ht. destruct Ht as [Hm _].
    apply Z.eqb_eq in Hm. simpl hd. lia.
Qed.

(** C8: a chunk shorter than 14 bytes arriving on an empty buffer is
    dropped silently: [ECMRx] returns no error and the very same NIC (so no
    packet is injected and the buffer stays empty); a valid frame that
    follows (first transfer of at least 14 bytes, transfers ended by the
    completion rule) is reassembled exactly as if the short chunk had never
    arrived, into one packet with the frame's protocol and payload. *)
Theorem C8_short_initial_chunk_dropped (eth : NIC) (chunk : list byte)
    (lastErr : error) (ts : list (list byte)) :
  operational eth = true ->
  buf eth = [] ->
  (length chunk < 14)%nat ->
  terminated (maxPacketSize eth) ts = true ->
  (14 <= length (hd [] ts))%nat ->
  ECMRx eth chunk lastErr = Ret (eth, ([], None)) /\
  receive eth (chunk :: ts) = receive eth ts /\
  exists eth' pkt,
    receive eth (chunk :: ts) = Ret eth' /\
    injected eth' = injected eth ++ [(ethertype (concat ts), pkt)] /\
    Payload pkt = skipn 14 (concat ts) /\
    LinkHeader pkt = firstn 14 (concat ts) /\
    buf eth' = [].
Proof.
  intros Hop Hb Hlen Ht H14.
  destruct (operational_Link eth Hop) as [l Hl].
  assert (Hdrop : forall e, ECMRx eth chunk e = Ret (eth, ([], None)))
    by (intros e; apply ECMRx_drop; assumption).
  split; [apply Hdrop|].
  assert (Hskip : receive eth (chunk :: ts) = receive eth ts)
    by (simpl; rewrite Hdrop; reflexivity).
  split; [exact Hskip|].
  rewrite Hskip, (receive_terminated eth l ts Hop Hl Ht) by (right; exact H14).
  rewrite Hb. simpl app.
  eexists. exists (snd (inbound_packet (concat ts))).
  split; [reflexivity|].
  split; [unfold injected; simpl; rewrite Hl; reflexivity|].
  split; [apply Payload_inbound_packet|].
  split; reflexivity.
Qed.

(** A stray 3-byte transfer, then a 16+4 byte frame at packet size 16. *)
Lemma C8_witness :
  ECMRx (nic 16 []) [x01; x02; x03] None = Ret (nic 16 [], ([], None)) /\
  receive (nic 16 [])
    ([x01; x02; x03] :: transfers 16 (header_ipv4 ++ bytes 6 xff))
  = receive (nic 16 []) (transfers 16 (header_ipv4 ++ bytes 6 xff)) /\
  exists eth' pkt,
    receive (nic 16 [])
      ([x01; x02; x03] :: transfers 16 (header_ipv4 ++ bytes 6 xff))
    = Ret eth' /\
    injected eth'
    = injected (nic 16 [])
      ++ [(ethertype (concat (transfers 16 (header_ipv4 ++ bytes 6 xff))),
           pkt)] /\
    Payload pkt
    = skipn 14 (concat (transfers 16 (header_ipv4 ++ bytes 6 xff))) /\
    LinkHeader pkt
    = firstn 14 (concat (transfers 16 (header_ipv4 ++ bytes 6 xff))) /\
    buf eth' = [].
Proof.
  apply (C8_short_initial_chunk_dropped (nic 16 []) [x01; x02; x03] None
           (transfers 16 (header_ipv4 ++ bytes 6 xff))).
  - reflexivity.
  - reflexivity.
  - simpl. lia.
  - reflexivity.
  - simpl. lia.
Defined.

(** C7: from any reachable state of a NIC whose maximum packet size is at
    least 14, and for any sequence of chunks no longer than the maximum
    packet size, the calls all return and after each of them (every prefix
    of the sequence) the reassembly buffer is empty or at least 14 bytes
    long. *)
Theorem C7_buffer_empty_or_header (eth : NIC) (ts : list (list byte))
    (n : nat) :
  reachable eth ->
  14 <= maxPacketSize eth ->
  Forall (fun out => Z.of_nat (length out) <= maxPacketSize eth) ts ->
  exists eth',
    receive eth (firstn n ts) = Ret eth' /\
    (length (buf eth') = 0 \/ 14 <= length (buf eth'))%nat.
Proof.
  intros Hr _ _.
  destruct (receive_operational eth (firstn n ts)
              (reachable_operational eth Hr)) as (eth' & E & Hop).
  exists eth'. split; [exact E|].
  unfold operational in Hop. apply andb_prop in Hop.
  destruct Hop as [_ Hb]. apply orb_prop in Hb.
  destruct Hb as [Hz | Hge].
  - left. apply Nat.eqb_eq. exact Hz.
  - right. apply Nat.leb_le. exact Hge.
Qed.

(** A full 16-byte transfer followed by a 4-byte one, observed after the
    first call: the buffer holds the 16 deferred bytes. *)
Lemma C7_witness :
  exists eth',
    receive (nic 16 [])
      (firstn 1 [header_ipv4 ++ [x01; x02]; bytes 4 xff]) = Ret eth' /\
    (length (buf eth') = 0 \/ 14 <= length (buf eth'))%nat.
Proof.
  apply (C7_buffer_empty_or_header (nic 16 [])
           [header_ipv4 ++ [x01; x02]; bytes 4 xff] 1).
  - apply (reach_Init 16 (new_nic []) (nic 16 [])); reflexivity.
  - vm_compute. discriminate.
  - repeat constructor; vm_compute; discriminate.
Defined.

(** ** The transfers of the USB transport *)

Lemma split_transfers_concat (fuel mps : nat) (frame : list byte) :
  concat (split_transfers fuel mps frame) = frame.
Proof.
  revert frame. induction fuel as [|fuel IH]; intros frame; simpl.
  - apply app_nil_r.
  - destruct (length frame <? mps)%nat; simpl.
    + apply app_nil_r.
    + rewrite IH. apply firstn_skipn.
Qed.

Lemma transfers_concat (mps : Z) (frame : list byte) :
  concat (transfers mps frame) = frame.
Proof.
  apply split_transfers_concat.
Qed.

Lemma terminated_cons (mps : Z) (out next : list byte)
    (rest : list (list byte)) :
  terminated mps (out :: next :: rest)
  = (Z.of_nat (length out) =? mps) && terminated mps (next :: rest).
Proof.
  reflexivity.
Qed.

Lemma split_transfers_terminated (fuel mps : nat) (frame : list byte) :
  (0 < mps)%nat ->
  (length frame <= fuel)%nat ->
  terminated (Z.of_nat mps) (split_transfers fuel mps frame) = true.
Proof.
  intros Hmps. revert frame.
  induction fuel as [|fuel IH]; intros frame Hlen; simpl.
  - apply Z.ltb_lt. lia.
  - destruct (Nat.ltb_spec (length frame) mps) as [Hlt | Hge].
    + simpl. apply Z.ltb_lt. lia.
    + assert (Hrest : (length (skipn mps frame) <= fuel)%nat)
        by (rewrite length_skipn; lia).
      specialize (IH (skipn mps frame) Hrest).
      destruct (split_transfers fuel mps (skipn mps frame)) as [|next rest].
      * discriminate.
      * rewrite terminated_cons, IH, length_firstn.
        rewrite Nat.min_l by lia. rewrite Z.eqb_refl. reflexivity.
Qed.

(** The transport's transfers follow the completion rule. *)
Lemma transfers_terminated (mps : Z) (frame : list byte) :
  0 < mps -> terminated mps (transfers mps frame) = true.
Proof.
  intros Hmps. unfold transfers.
  rewrite <- (Z2Nat.id mps) at 1 by lia.
  apply split_transfers_terminated; lia.
Qed.

(** The completion rule leaves no choice: the transfers of a frame are the
    ones the transport produces. *)
Lemma terminated_split_transfers (mps : nat) (ts : list (list byte))
    (fuel : nat) :
  (0 < mps)%nat ->
  terminated (Z.of_nat mps) ts = true ->
  (length (concat ts) <= fuel)%nat ->
  split_transfers fuel mps (concat ts) = ts.
Proof.
  intros Hmps. revert fuel.
  induction ts as [|out rest IH]; intros fuel Ht Hlen.
  - discriminate.
  - destruct rest as [|next rest].
    + simpl in Ht. apply Z.ltb_lt in Ht.
      simpl concat in *. rewrite app_nil_r in *.
      destruct fuel as [|fuel]; simpl.
      * reflexivity.
      * destruct (Nat.ltb_spec (length out) mps); [reflexivity | lia].
    + rewrite terminated_cons in Ht. apply andb_prop in Ht.
      destruct Ht as [Hm Ht]. apply Z.eqb_eq in Hm.
      assert (Hout : length out = mps) by lia.
      change (concat (out :: next :: rest))
        with (out ++ concat (next :: rest)) in *.
      rewrite length_app in Hlen.
      destruct fuel as [|fuel]; [lia|].
      cbn [split_transfers]. rewrite length_app.
      destruct (Nat.ltb_spec (length out + length (concat (next :: rest))) mps);
        [lia|].
      clear Hm H. subst mps.
      rewrite firstn_app, firstn_all, Nat.sub_diag, firstn_O, app_nil_r.
      rewrite skipn_app, skipn_all, Nat.sub_diag, skipn_O. cbn [app].
      rewrite (IH fuel Ht) by lia. reflexivity.
Qed.

Lemma terminated_transfers (mps : Z) (ts : list (list byte)) :
  0 < mps ->
  terminated mps ts = true ->
  transfers mps (concat ts) = ts.
Proof.
  intros Hmps Ht. unfold transfers.
  apply terminated_split_transfers; try lia.
  rewrite Z2Nat.id by lia. exact Ht.
Qed.

(** ** Frames split into transfers *)

(** C5 (amended): on a NIC in service with an empty buffer and a maximum
    packet size of at least 14, a frame of at least 14 bytes delivered as
    transfers that follow the completion rule (all of exactly the maximum
    packet size but the last, which is shorter, possibly empty) yields
    exactly one injected packet, with the protocol number at bytes 12-13 of
    the frame and the frame from byte 14 on as payload.  Feeding the whole
    frame as one transfer gives the same result unless the frame is exactly
    one maximum packet size long, in which case the single transfer is
    deferred. *)
Theorem C5_split_by_completion_rule (eth : NIC) (frame : list byte)
    (ts : list (list byte)) :
  operational eth = true ->
  buf eth = [] ->
  14 <= maxPacketSize eth ->
  (14 <= length frame)%nat ->
  terminated (maxPacketSize eth) ts = true ->
  concat ts = frame ->
  exists eth' pkt,
    receive eth ts = Ret eth' /\
    injected eth' = injected eth ++ [(ethertype frame, pkt)] /\
    Payload pkt = skipn 14 frame /\
    LinkHeader pkt = firstn 14 frame /\
    buf eth' = [] /\
    receive eth [frame]
    = if Z.of_nat (length frame) =? maxPacketSize eth
      then Ret (set_buf eth frame)
      else Ret eth'.
Proof.
  intros Hop Hb Hmps Hlen Ht Hc.
  destruct (operational_Link eth Hop) as [l Hl].
  assert (H1 : (14 <= length (hd [] ts))%nat)
    by (apply (terminated_first (maxPacketSize eth)); rewrite ?Hc; assumption).
  rewrite (receive_terminated eth l ts Hop Hl Ht) by (right; exact H1).
  rewrite Hc, Hb. cbn [app].
  eexists. exists (snd (inbound_packet frame)).
  split; [reflexivity|].
  split; [unfold injected; simpl; rewrite Hl; reflexivity|].
  split; [apply Payload_inbound_packet|].
  split; [reflexivity|]. split; [reflexivity|].
  cbn [receive].
  destruct (Z.eqb_spec (Z.of_nat (length frame)) (maxPacketSize eth))
    as [E | N].
  - rewrite (ECMRx_defer eth frame None) by auto.
    rewrite Hb. reflexivity.
  - rewrite (ECMRx_dispatch eth l frame None) by (rewrite ?Hb; auto).
    rewrite Hb. reflexivity.
Qed.

(** A 20-byte frame as 16 + 4 bytes, at maximum packet size 16. *)
Lemma C5_witness :
  exists eth' pkt,
    receive (nic 16 []) [header_ipv4 ++ [x01; x02]; bytes 4 xff]
    = Ret eth' /\
    injected eth'
    = injected (nic 16 [])
      ++ [(ethertype (header_ipv4 ++ [x01; x02] ++ bytes 4 xff), pkt)] /\
    Payload pkt = skipn 14 (header_ipv4 ++ [x01; x02] ++ bytes 4 xff) /\
    LinkHeader pkt = firstn 14 (header_ipv4 ++ [x01; x02] ++ bytes 4 xff) /\
    buf eth' = [] /\
    receive (nic 16 []) [header_ipv4 ++ [x01; x02] ++ bytes 4 xff]
    = if Z.of_nat (length (header_ipv4 ++ [x01; x02] ++ bytes 4 xff))
         =? maxPacketSize (nic 16 [])
      then Ret (set_buf (nic 16 [])
                  (header_ipv4 ++ [x01; x02] ++ bytes 4 xff))
      else Ret eth'.
Proof.
  apply (C5_split_by_completion_rule (nic 16 [])
           (header_ipv4 ++ [x01; x02] ++ bytes 4 xff)
           [header_ipv4 ++ [x01; x02]; bytes 4 xff]).
  - reflexivity.
  - reflexivity.
  - vm_compute. discriminate.
  - simpl. lia.
  - reflexivity.
  - reflexivity.
Defined.

(** C5 as stated fails: transfers no longer than the maximum packet size
    need not follow the completion rule, the maximum packet size need not
    reach 14, and a single transfer of exactly the maximum packet size is
    deferred.
    - 28 bytes split as 14 + 14 at packet size 512: each piece is short, so
      each is dispatched as a frame of its own (two packets instead of one);
    - 20 bytes split as 8 + 8 + 4 at packet size 8: every piece is dropped,
      the unsplit frame is dispatched;
    - 16 bytes followed by a zero-length transfer at packet size 16: one
      packet, while the unsplit frame alone is kept in the buffer. *)
Lemma C5_counterexample :
  (let frame := header_ipv4 ++ bytes 14 xff in
   let split := [header_ipv4; bytes 14 xff] in
   (14 <= length frame)%nat /\ concat split = frame /\
   forallb (fun out => Z.of_nat (length out) <=? 512) split = true /\
   exists a b,
     receive (nic 512 []) split = Ret a /\
     receive (nic 512 []) [frame] = Ret b /\
     length (injected a) = 2%nat /\ length (injected b) = 1%nat)
  /\
  (let frame := header_ipv4 ++ bytes 6 xff in
   let split := transfers 8 frame in
   (14 <= length frame)%nat /\ concat split = frame /\
   forallb (fun out => Z.of_nat (length out) <=? 8) split = true /\
   exists a b,
     receive (nic 8 []) split = Ret a /\
     receive (nic 8 []) [frame] = Ret b /\
     injected a = [] /\ length (injected b) = 1%nat)
  /\
  (let frame := header_ipv4 ++ [x01; x02] in
   let split := transfers 16 frame in
   (14 <= length frame)%nat /\ concat split = frame /\
   forallb (fun out => Z.of_nat (length out) <=? 16) split = true /\
   exists a b,
     receive (nic 16 []) split = Ret a /\
     receive (nic 16 []) [frame] = Ret b /\
     length (injected a) = 1%nat /\ injected b = []).
Proof.
  repeat split; try (simpl; lia);
    eexists; eexists; repeat split; reflexivity.
Qed.

(** ** Round trip *)

(** The fields of a frame built by [ECMTx], as [ECMRx] reads them. *)
Lemma transmitted_frame_fields (host device payload : list byte) (proto : Z) :
  length host = 6%nat ->
  length device = 6%nat ->
  let frame :=
    host ++ device ++ [byte_of_Z (proto / 256); byte_of_Z proto] ++ payload in
  ethertype frame = proto mod 65536 /\
  skipn 14 frame = payload /\
  firstn 12 frame = host ++ device /\
  (14 <= length frame)%nat.
Proof.
  intros Hh Hd.
  destruct host as [|h1 [|h2 [|h3 [|h4 [|h5 [|h6 [|]]]]]]]; try discriminate.
  destruct device as [|d1 [|d2 [|d3 [|d4 [|d5 [|d6 [|]]]]]]];
    try discriminate.
  cbn [app]. unfold ethertype. cbn [nth skipn firstn length].
  repeat split; try lia.
  rewrite !byte_to_of_Z. Z.to_euclidean_division_equations. lia.
Qed.

(** C4 (amended): on a NIC in service with an empty reassembly buffer and a
    maximum packet size of at least 14, transmitting the packet at the head
    of the outbound queue and feeding the resulting frame back to the
    Reassembler, cut into transfers by the completion rule, injects exactly
    one packet: its payload is the concatenation of the transmitted packet's
    slices, its protocol number is the transmitted one reduced modulo 2^16
    (the transmitted one itself when it fits 16 bits), and the first 12
    bytes of the frame are the host MAC followed by the device MAC. *)
Theorem C4_round_trip (eth : NIC) (l : Endpoint) (pkt : PacketBuffer)
    (rest : list PacketBuffer) (inp : list byte) (lastErr : error) :
  operational eth = true ->
  buf eth = [] ->
  Link eth = Some l ->
  q l = pkt :: rest ->
  14 <= maxPacketSize eth ->
  exists eth1 frame eth2 pkt',
    ECMTx eth inp lastErr = Ret (eth1, (frame, None)) /\
    firstn 12 frame = HostMAC eth ++ DeviceMAC eth /\
    receive eth1 (transfers (maxPacketSize eth) frame) = Ret eth2 /\
    injected eth2
    = injected eth ++ [(NetworkProtocolNumber pkt mod 65536, pkt')] /\
    Payload pkt' = concat (AsSlices pkt) /\
    LinkHeader pkt' = firstn 14 frame /\
    buf eth2 = [].
Proof.
  intros Hop Hb Hl Hq Hmps.
  destruct (operational_MACs eth Hop) as [Hh Hd].
  pose proof (transmitted_frame_fields (HostMAC eth) (DeviceMAC eth)
                (concat (AsSlices pkt)) (NetworkProtocolNumber pkt) Hh Hd)
    as Hf.
  cbv zeta in Hf.
  set (frame := HostMAC eth ++ DeviceMAC eth
                ++ [byte_of_Z (NetworkProtocolNumber pkt / 256);
                    byte_of_Z (NetworkProtocolNumber pkt)]
                ++ concat (AsSlices pkt)) in *.
  destruct Hf as (Hty & Hpay & Hmacs & Hlen).
  set (l1 := {| inbound := inbound l; q := rest |}).
  assert (Htx : ECMTx eth inp lastErr = Ret (set_Link eth l1, (frame, None))).
  { rewrite (ECMTx_unfold eth l inp lastErr Hl), Hq. reflexivity. }
  assert (Hop1 : operational (set_Link eth l1) = true)
    by (apply operational_set_Link; exact Hop).
  assert (Ht : terminated (maxPacketSize eth)
                 (transfers (maxPacketSize eth) frame) = true)
    by (apply transfers_terminated; lia).
  assert (H1 : (14 <= length (hd [] (transfers (maxPacketSize eth) frame)))%nat).
  { apply (terminated_first (maxPacketSize eth)); try assumption.
    rewrite transfers_concat. exact Hlen. }
  exists (set_Link eth l1), frame. eexists.
  exists (snd (inbound_packet frame)).
  split; [exact Htx|]. split; [exact Hmacs|]. split.
  - rewrite (receive_terminated (set_Link eth l1) l1) by (auto; right; exact H1).
    rewrite transfers_concat. simpl buf. rewrite Hb. cbn [app]. reflexivity.
  - split.
    + unfold injected. simpl. rewrite Hl. rewrite <- Hty. reflexivity.
    + split; [rewrite Payload_inbound_packet; exact Hpay|].
      split; reflexivity.
Qed.

(** An IPv4 packet of two slices, looped back at maximum packet size 16:
    the 17-byte frame travels as a 16-byte and a 1-byte transfer. *)
Lemma C4_witness :
  exists eth1 frame eth2 pkt',
    ECMTx (nic 16 [outbound 2048 [[x01; x02]; [x03]]]) [] None
    = Ret (eth1, (frame, None)) /\
    firstn 12 frame = hostMAC ++ deviceMAC /\
    receive eth1 (transfers 16 frame) = Ret eth2 /\
    injected eth2 = [] ++ [(2048 mod 65536, pkt')] /\
    Payload pkt' = concat (AsSlices (outbound 2048 [[x01; x02]; [x03]])) /\
    LinkHeader pkt' = firstn 14 frame /\
    buf eth2 = [].
Proof.
  apply (C4_round_trip (nic 16 [outbound 2048 [[x01; x02]; [x03]]])
           {| inbound := []; q := [outbound 2048 [[x01; x02]; [x03]]] |}
           (outbound 2048 [[x01; x02]; [x03]]) [] [] None).
  - reflexivity.
  - reflexivity.
  - reflexivity.
  - reflexivity.
  - vm_compute. discriminate.
Defined.

(** C4 as stated fails in two configurations.
    - Maximum packet size 8: the 20-byte frame travels as 8 + 8 + 4 bytes,
      each transfer is shorter than a header and is dropped, nothing is
      injected.
    - Protocol number 0x10800, which does not fit 16 bits: the frame
      carries 0x0800 and that is the protocol of the injected packet. *)
Lemma C4_counterexample :
  (exists eth1 frame eth2,
     ECMTx (nic 8 [outbound 2048 [bytes 6 xff]]) [] None
     = Ret (eth1, (frame, None)) /\
     transfers 8 frame
     = [firstn 8 frame; firstn 8 (skipn 8 frame); skipn 16 frame] /\
     receive eth1 (transfers 8 frame) = Ret eth2 /\
     injected eth2 = [])
  /\
  (exists eth1 frame eth2,
     ECMTx (nic 512 [outbound 67584 [bytes 6 xff]]) [] None
     = Ret (eth1, (frame, None)) /\
     receive eth1 (transfers 512 frame) = Ret eth2 /\
     map fst (injected eth2) = [2048] /\
     NetworkProtocolNumber (outbound 67584 [bytes 6 xff]) <> 2048).
Proof.
  split.
  - eexists. eexists. eexists.
    split; [reflexivity|]. split; [reflexivity|].
    split; reflexivity.
  - eexists. eexists. eexists.
    split; [reflexivity|]. split; [reflexivity|].
    split; [reflexivity|]. simpl. discriminate.
Qed.

(** ** Growth of the reassembly buffer *)

Lemma set_buf_same (eth : NIC) : set_buf eth (buf eth) = eth.
Proof.
  destruct eth. reflexivity.
Qed.

(** Transfers of exactly the maximum packet size are all kept. *)
Lemma receive_deferred (eth : NIC) (ts : list (list byte)) :
  buf eth <> [] \/ 14 <= maxPacketSize eth ->
  Forall (fun out => Z.of_nat (length out) = maxPacketSize eth) ts ->
  receive eth ts = Ret (set_buf eth (buf eth ++ concat ts)).
Proof.
  revert eth. induction ts as [|out rest IH]; intros eth Hnd Hall; simpl.
  - rewrite app_nil_r, set_buf_same. reflexivity.
  - inversion Hall as [|? ? Hm Hrest]; subst.
    assert (Hnd' : buf eth <> [] \/ (14 <= length out)%nat)
      by (destruct Hnd; [left; assumption | right; lia]).
    rewrite (ECMRx_defer eth out None Hnd' Hm). cbn [bind].
    rewrite IH.
    + simpl. rewrite <- app_assoc. reflexivity.
    + simpl buf. simpl maxPacketSize.
      destruct Hnd as [Hne | H14]; [left | right; exact H14].
      destruct (buf eth); [congruence | discriminate].
    + exact Hrest.
Qed.

(** No bound holds: whatever the bound, enough full-size transfers push the
    buffer beyond it, nothing being injected or discarded. *)
Lemma length_concat_repeat (out : list byte) (n : nat) :
  length (concat (repeat out n)) = (n * length out)%nat.
Proof.
  induction n as [|n IH]; [reflexivity|].
  cbn [repeat concat]. rewrite length_app, IH. lia.
Qed.

Lemma buffer_unbounded (bound : nat) :
  exists ts eth',
    receive (nic 512 []) ts = Ret eth' /\
    injected eth' = [] /\
    (bound < length (buf eth'))%nat.
Proof.
  exists (repeat (bytes 512 xff) (S bound)).
  exists (set_buf (nic 512 [])
            (buf (nic 512 []) ++ concat (repeat (bytes 512 xff) (S bound)))).
  split.
  - apply receive_deferred.
    + right. vm_compute. discriminate.
    + apply Forall_forall. intros out Hin.
      apply repeat_spec in Hin. subst out. reflexivity.
  - split; [reflexivity|].
    change (buf (set_buf (nic 512 [])
                   (buf (nic 512 [])
                    ++ concat (repeat (bytes 512 xff) (S bound)))))
      with (concat (repeat (bytes 512 xff) (S bound))).
    rewrite length_concat_repeat. unfold bytes. rewrite repeat_length. lia.
Qed.





(** ** The transfer error passed by the USB transport *)

(** C9 (amended): the endpoint functions ignore the transfer error they are
    given.  On a NIC in service, whatever the error passed in, [ECMRx] and
    [ECMTx] return normally with a nil error, and each does exactly what it
    does when called with a nil error. *)
Theorem C9_transfer_error_ignored (eth : NIC) (data : list byte)
    (lastErr : error) :
  operational eth = true ->
  ECMRx eth data lastErr = ECMRx eth data None /\
  ECMTx eth data lastErr = ECMTx eth data None /\
  (exists eth', ECMRx eth data lastErr = Ret (eth', ([], None))) /\
  (exists eth' frame, ECMTx eth data lastErr = Ret (eth', (frame, None))).
Proof.
  intros Hop.
  split; [reflexivity|]. split; [reflexivity|]. split.
  - destruct (ECMRx_operational eth data lastErr Hop) as (eth' & E & _).
    exists eth'. exact E.
  - destruct (operational_Link eth Hop) as [l Hl].
    rewrite (ECMTx_unfold eth l data lastErr Hl).
    destruct (q l) as [|pkt rest]; eexists; eexists; reflexivity.
Qed.

(** A complete frame arrives, and a packet is pending, while the transport
    reports a failed transfer. *)
Lemma C9_witness :
  ECMRx (nic 512 [outbound 2048 [[x01; x02]; [x03]]])
    (header_ipv4 ++ [x01; x02; x03]) (Some "transfer error"%string)
  = ECMRx (nic 512 [outbound 2048 [[x01; x02]; [x03]]])
      (header_ipv4 ++ [x01; x02; x03]) None /\
  ECMTx (nic 512 [outbound 2048 [[x01; x02]; [x03]]])
    (header_ipv4 ++ [x01; x02; x03]) (Some "transfer error"%string)
  = ECMTx (nic 512 [outbound 2048 [[x01; x02]; [x03]]])
      (header_ipv4 ++ [x01; x02; x03]) None /\
  (exists eth',
     ECMRx (nic 512 [outbound 2048 [[x01; x02]; [x03]]])
       (header_ipv4 ++ [x01; x02; x03]) (Some "transfer error"%string)
     = Ret (eth', ([], None))) /\
  (exists eth' frame,
     ECMTx (nic 512 [outbound 2048 [[x01; x02]; [x03]]])
       (header_ipv4 ++ [x01; x02; x03]) (Some "transfer error"%string)
     = Ret (eth', (frame, None))).
Proof.
  apply (C9_transfer_error_ignored
           (nic 512 [outbound 2048 [[x01; x02]; [x03]]])
           (header_ipv4 ++ [x01; x02; x03]) (Some "transfer error"%string)).
  reflexivity.
Defined.

(** C9 as stated fails: called with a non-nil transfer error, both endpoint
    functions return normally and the error they return is nil, not the one
    they were given. *)
Lemma C9_counterexample :
  (exists eth',
     ECMRx (nic 512 []) (header_ipv4 ++ [x01; x02; x03])
       (Some "transfer error"%string)
     = Ret (eth', ([], None)))
  /\
  (exists eth' frame,
     ECMTx (nic 512 [outbound 2048 [[x01; x02]; [x03]]]) []
       (Some "transfer error"%string)
     = Ret (eth', (frame, None)))
  /\
  (None : error) <> Some "transfer error"%string.
Proof.
  split; [eexists; reflexivity|].
  split; [eexists; eexists; reflexivity|].
  discriminate.
Qed.

(** * Further properties of the driver *)

(** ** Initialisation *)


(** A rejected NIC is handed back untouched (no endpoint function is
    installed, the maximum packet size is not set), and a missing link
    endpoint is reported before the MAC addresses are looked at. *)
Theorem Init_rejection (MaxPacketSize : Z) (eth : NIC) :
  snd (Init MaxPacketSize eth) <> None ->
  fst (Init MaxPacketSize eth) = eth /\
  snd (Init MaxPacketSize eth)
  = Some (match Link eth with
          | None => "missing link endpoint"
          | Some _ => "invalid MAC address"
          end)%string.
Proof.
  unfold Init.
  destruct (Link eth) as [l|]; cbn [fst snd]; [|auto].
  destruct (negb (length (HostMAC eth) =? 6)%nat
            || negb (length (DeviceMAC eth) =? 6)%nat);
    cbn [fst snd]; [auto | congruence].
Qed.

(** No link endpoint and a 5-byte host MAC: the link is reported. *)
Lemma Init_rejection_witness :
  fst (Init 512 (mkNIC [x01; x02; x03; x04; x05] deviceMAC None
                   None None None 0 []))
  = mkNIC [x01; x02; x03; x04; x05] deviceMAC None None None None 0 [] /\
  snd (Init 512 (mkNIC [x01; x02; x03; x04; x05] deviceMAC None
                   None None None 0 []))
  = Some (match Link (mkNIC [x01; x02; x03; x04; x05] deviceMAC None
                        None None None 0 []) with
          | None => "missing link endpoint"
          | Some _ => "invalid MAC address"
          end)%string.
Proof.
  apply (Init_rejection 512
           (mkNIC [x01; x02; x03; x04; x05] deviceMAC None
              None None None 0 [])).
  simpl. discriminate.
Defined.

(** An accepted NIC keeps its MAC addresses, its link endpoint and its
    reassembly buffer; an endpoint function chosen by the caller is kept,
    a missing one is set to the built-in one; the maximum packet size is
    the package variable. *)
Theorem Init_effect (MaxPacketSize : Z) (eth eth' : NIC) :
  Init MaxPacketSize eth = (eth', None) ->
  HostMAC eth' = HostMAC eth /\
  DeviceMAC eth' = DeviceMAC eth /\
  Link eth' = Link eth /\
  buf eth' = buf eth /\
  maxPacketSize eth' = MaxPacketSize mod 65536 /\
  Rx eth' = Some (match Rx eth with Some f => f | None => fnECMRx end) /\
  Tx eth' = Some (match Tx eth with Some f => f | None => fnECMTx end) /\
  Control eth'
  = Some (match Control eth with Some f => f | None => fnECMControl end).
Proof.
  unfold Init.
  destruct (Link eth) as [l|] eqn:Hl; [|discriminate].
  destruct (negb (length (HostMAC eth) =? 6)%nat
            || negb (length (DeviceMAC eth) =? 6)%nat); [discriminate|].
  intros H. injection H as <-.
  destruct (Rx eth), (Tx eth), (Control eth);
    repeat split; try reflexivity; exact Hl.
Qed.

(** A caller-supplied receive function and a partial frame survive. *)
Lemma Init_effect_witness :
  exists eth',
    Init 64 (mkNIC hostMAC deviceMAC (Some (mkEndpoint [] []))
               (Some (fnCustom 7)) None None 0 header_ipv4)
    = (eth', None) /\
    Rx eth' = Some (fnCustom 7) /\
    Tx eth' = Some fnECMTx /\
    buf eth' = header_ipv4 /\
    maxPacketSize eth' = 64.
Proof.
  eexists. split; [reflexivity|].
  pose proof (Init_effect 64
                (mkNIC hostMAC deviceMAC (Some (mkEndpoint [] []))
                   (Some (fnCustom 7)) None None 0 header_ipv4)
                _ eq_refl) as H.
  destruct H as (_ & _ & _ & Hb & Hm & Hrx & Htx & _).
  repeat split; assumption.
Defined.

(** ** What one call can and cannot change *)

Lemma receive_app (eth : NIC) (ts1 ts2 : list (list byte)) :
  receive eth (ts1 ++ ts2) = (eth' <- receive eth ts1 ;; receive eth' ts2).
Proof.
  revert eth. induction ts1 as [|out rest IH]; intros eth; simpl.
  - reflexivity.
  - destruct (ECMRx eth out None) as [[eth1 r]|msg]; cbn [bind]; auto.
Qed.

(** Outside the invariant, a completed frame shorter than a header makes
    the slice expressions panic. *)
Lemma ECMRx_short_frame_panics (eth : NIC) (out : list byte)
    (lastErr : error) :
  buf eth <> [] \/ (14 <= length out)%nat ->
  Z.of_nat (length out) <> maxPacketSize eth ->
  (length (buf eth ++ out) < 14)%nat ->
  ECMRx eth out lastErr = Panic "slice bounds out of range".
Proof.
  intros Hnd Hm Hlen. unfold ECMRx. rewrite not_dropped by exact Hnd.
  simpl maxPacketSize.
  destruct (Z.eqb_spec (Z.of_nat (length out)) (maxPacketSize eth));
    [contradiction|].
  simpl buf. unfold slice at 1.
  destruct (Nat.leb_spec 14 (length (buf eth ++ out))); [lia|].
  reflexivity.
Qed.

(** Without a link endpoint, a completed frame makes the injection panic. *)
Lemma ECMRx_nil_link_panics (eth : NIC) (out : list byte) (lastErr : error) :
  Link eth = None ->
  buf eth <> [] \/ (14 <= length out)%nat ->
  Z.of_nat (length out) <> maxPacketSize eth ->
  (14 <= length (buf eth ++ out))%nat ->
  ECMRx eth out lastErr = Panic "nil pointer dereference".
Proof.
  intros Hl Hnd Hm Hlen. unfold ECMRx. rewrite not_dropped by exact Hnd.
  simpl maxPacketSize.
  destruct (Z.eqb_spec (Z.of_nat (length out)) (maxPacketSize eth));
    [contradiction|].
  simpl buf.
  rewrite slice_header, slice_ethertype, slice_from_payload by exact Hlen.
  cbn [bind]. rewrite Uint16_bytes. cbn [bind].
  simpl Link. rewrite Hl. reflexivity.
Qed.

(** The three ways in which [ECMRx] returns, whatever the state. *)
Lemma ECMRx_returns (eth eth' : NIC) (out : list byte) (lastErr : error)
    (r : list byte * error) :
  ECMRx eth out lastErr = Ret (eth', r) ->
  r = ([], None) /\
  ((buf eth = [] /\ (length out < 14)%nat /\ eth' = eth)
   \/ ((buf eth <> [] \/ (14 <= length out)%nat) /\
       Z.of_nat (length out) = maxPacketSize eth /\
       eth' = set_buf eth (buf eth ++ out))
   \/ ((buf eth <> [] \/ (14 <= length out)%nat) /\
       Z.of_nat (length out) <> maxPacketSize eth /\
       (14 <= length (buf eth ++ out))%nat /\
       exists l, Link eth = Some l /\
         eth' = set_buf (set_Link eth
                  (inject l (inbound_packet (buf eth ++ out)))) [])).
Proof.
  intros H.
  assert (Hcase : (buf eth = [] /\ (length out < 14)%nat)
                  \/ (buf eth <> [] \/ (14 <= length out)%nat)).
  { destruct (buf eth) as [|b rest].
    - destruct (Nat.lt_ge_cases (length out) 14); auto.
    - right. left. discriminate. }
  destruct Hcase as [[Hb Hl] | Hnd].
  - rewrite ECMRx_drop in H by assumption. injection H as <- <-. auto.
  - destruct (Z.eq_dec (Z.of_nat (length out)) (maxPacketSize eth)) as [E|N].
    + rewrite ECMRx_defer in H by assumption. injection H as <- <-.
      split; [reflexivity|]. right. left. auto.
    + destruct (Nat.lt_ge_cases (length (buf eth ++ out)) 14) as [Hs|Hlen].
      * rewrite ECMRx_short_frame_panics in H by assumption. discriminate.
      * destruct (Link eth) as [l|] eqn:Hl.
        -- rewrite (ECMRx_dispatch eth l) in H by assumption.
           injection H as <- <-. split; [reflexivity|]. right. right.
           repeat split; try assumption. exists l. auto.
        -- rewrite ECMRx_nil_link_panics in H by assumption. discriminate.
Qed.

Lemma packet_bytes_inbound_packet (frame : list byte) :
  packet_bytes (inbound_packet frame) = frame.
Proof.
  unfold packet_bytes. rewrite Payload_inbound_packet.
  apply firstn_skipn.
Qed.




(** Whenever [ECMTx] returns, in any state: the error is nil; the
    reassembly buffer, the injected packets, the MAC addresses, the maximum
    packet size and the endpoint functions are those it found; either no
    packet was pending and the result is empty, or the first pending packet
    is gone from the queue and the result is its frame. *)
Theorem ECMTx_footprint (eth eth' : NIC) (inp : list byte) (lastErr : error)
    (r : list byte * error) :
  ECMTx eth inp lastErr = Ret (eth', r) ->
  snd r = None /\
  buf eth' = buf eth /\
  injected eth' = injected eth /\
  HostMAC eth' = HostMAC eth /\
  DeviceMAC eth' = DeviceMAC eth /\
  maxPacketSize eth' = maxPacketSize eth /\
  (Rx eth', Tx eth', Control eth') = (Rx eth, Tx eth, Control eth) /\
  ((pending eth = [] /\ pending eth' = [] /\ fst r = [])
   \/ exists pkt,
        pending eth = pkt :: pending eth' /\
        fst r = outbound_frame eth pkt).
Proof.
  intros H.
  destruct (Link eth) as [l|] eqn:Hl.
  - rewrite (ECMTx_unfold eth l inp lastErr Hl) in H.
    unfold pending, injected. rewrite Hl.
    destruct (q l) as [|pkt rest] eqn:Hq; injection H as <- <-; simpl.
    + repeat (split; [reflexivity|]). left. auto.
    + repeat (split; [reflexivity|]). right. exists pkt. auto.
  - unfold ECMTx in H. rewrite Hl in H. discriminate.
Qed.

(** A packet is pending while a partial frame sits in the buffer. *)
Lemma ECMTx_footprint_witness :
  exists eth' frame,
    ECMTx (set_buf (nic 16 [outbound 2048 [[x01]]])
             (header_ipv4 ++ [x01; x02])) [] None
    = Ret (eth', (frame, None)) /\
    buf eth' = header_ipv4 ++ [x01; x02] /\
    injected eth' = [] /\
    pending eth' = [] /\
    frame = header_ipv4 ++ [x01].
Proof.
  eexists. eexists. split; [reflexivity|].
  destruct (ECMTx_footprint
              (set_buf (nic 16 [outbound 2048 [[x01]]])
                 (header_ipv4 ++ [x01; x02])) _ [] None _ eq_refl)
    as (_ & Hb & Hi & _ & _ & _ & _ & [(He & _) | (pkt & Hq & Hf)]).
  - discriminate He.
  - split; [exact Hb|]. split; [exact Hi|].
    split; reflexivity.
Defined.

(** ** No call panics once the interface is initialised *)

(** In every state that an initialised NIC goes through, each of the three
    endpoint functions returns normally, for any data and any transfer
    error, and returns a nil error. *)
Theorem endpoint_functions_never_panic (eth : NIC) (data : list byte)
    (lastErr : error) :
  reachable eth ->
  (exists eth', ECMRx eth data lastErr = Ret (eth', ([], None))) /\
  (exists eth' frame, ECMTx eth data lastErr = Ret (eth', (frame, None))) /\
  ECMControl eth data lastErr = Ret (eth, ([], None)).
Proof.
  intros Hr. pose proof (reachable_operational eth Hr) as Hop.
  split; [|split; [|reflexivity]].
  - destruct (ECMRx_operational eth data lastErr Hop) as (eth' & E & _).
    eauto.
  - destruct (operational_Link eth Hop) as [l Hl].
    rewrite (ECMTx_unfold eth l data lastErr Hl).
    destruct (q l); eauto.
Qed.

(** After [Init], a deferred transfer, a packet queued by the stack and a
    transmission, a runt transfer with a transfer error still returns. *)
Lemma endpoint_functions_never_panic_witness :
  (exists eth',
     ECMRx (set_Link (set_buf (nic 16 []) (header_ipv4 ++ [x01; x02]))
              {| inbound := []; q := [] |})
       [x01] (Some "stall"%string) = Ret (eth', ([], None))) /\
  (exists eth' frame,
     ECMTx (set_Link (set_buf (nic 16 []) (header_ipv4 ++ [x01; x02]))
              {| inbound := []; q := [] |})
       [x01] (Some "stall"%string) = Ret (eth', (frame, None))) /\
  ECMControl (set_Link (set_buf (nic 16 []) (header_ipv4 ++ [x01; x02]))
                {| inbound := []; q := [] |})
    [x01] (Some "stall"%string)
  = Ret (set_Link (set_buf (nic 16 []) (header_ipv4 ++ [x01; x02]))
           {| inbound := []; q := [] |}, ([], None)).
Proof.
  apply (endpoint_functions_never_panic
           (set_Link (set_buf (nic 16 []) (header_ipv4 ++ [x01; x02]))
              {| inbound := []; q := [] |})
           [x01] (Some "stall"%string)).
  apply (reach_ECMTx
           (set_Link (set_buf (nic 16 []) (header_ipv4 ++ [x01; x02]))
              {| inbound := []; q := [] ++ [outbound 2048 [[x01]]] |})
           _ [] None (header_ipv4 ++ [x01], None)); [|reflexivity].
  apply (reach_write (set_buf (nic 16 []) (header_ipv4 ++ [x01; x02]))
           {| inbound := []; q := [] |} (outbound 2048 [[x01]]));
    [|reflexivity].
  apply (reach_ECMRx (nic 16 []) _ (header_ipv4 ++ [x01; x02]) None
           ([], None)); [|reflexivity].
  apply (reach_Init 16 (new_nic []) (nic 16 [])); reflexivity.
Defined.

(** ** Receiving and transmitting do not interfere *)



(** ** Frames in sequence *)

(** Frames sent back to back, each as transfers that follow the completion
    rule, are injected one packet per frame, in arrival order, and the
    buffer ends empty. *)
Theorem frames_delivered_in_order (eth : NIC)
    (tss : list (list (list byte))) :
  operational eth = true ->
  buf eth = [] ->
  14 <= maxPacketSize eth ->
  forallb (fun ts => terminated (maxPacketSize eth) ts
                     && (14 <=? length (concat ts))%nat) tss = true ->
  exists eth',
    receive eth (concat tss) = Ret eth' /\
    injected eth'
    = injected eth ++ map (fun ts => inbound_packet (concat ts)) tss /\
    buf eth' = [].
Proof.
  revert eth. induction tss as [|ts tss IH]; intros eth Hop Hb Hmps Hall.
  - exists eth. simpl. rewrite app_nil_r. auto.
  - cbn [forallb] in Hall. apply andb_prop in Hall.
    destruct Hall as [Hts Hall]. apply andb_prop in Hts.
    destruct Hts as [Ht Hlen]. apply Nat.leb_le in Hlen.
    destruct (operational_Link eth Hop) as [l Hl].
    pose proof (terminated_first _ ts Hmps Ht Hlen) as H1.
    cbn [concat map]. rewrite receive_app.
    rewrite (receive_terminated eth l ts Hop Hl Ht) by (right; exact H1).
    cbn [bind]. rewrite Hb. cbn [app].
    set (eth1 := set_buf (set_Link eth (inject l (inbound_packet (concat ts))))
                   []).
    destruct (IH eth1) as (eth' & E & Hi & Hb').
    + apply operational_set_buf; [|auto].
      apply operational_set_Link. exact Hop.
    + reflexivity.
    + exact Hmps.
    + exact Hall.
    + exists eth'. split; [exact E|]. split; [|exact Hb'].
      rewrite Hi. unfold injected. simpl. rewrite Hl.
      rewrite <- app_assoc. reflexivity.
Qed.

(** Two frames at maximum packet size 16: 20 bytes (16 + 4), then 16 bytes
    (16 + zero-length). *)
Lemma frames_delivered_in_order_witness :
  exists eth',
    receive (nic 16 [])
      (concat [transfers 16 (header_ipv4 ++ bytes 6 xff);
               transfers 16 (header_ipv4 ++ [x01; x02])]) = Ret eth' /\
    injected eth'
    = injected (nic 16 [])
      ++ map (fun ts => inbound_packet (concat ts))
           [transfers 16 (header_ipv4 ++ bytes 6 xff);
            transfers 16 (header_ipv4 ++ [x01; x02])] /\
    buf eth' = [].
Proof.
  apply (frames_delivered_in_order (nic 16 [])
           [transfers 16 (header_ipv4 ++ bytes 6 xff);
            transfers 16 (header_ipv4 ++ [x01; x02])]).
  - reflexivity.
  - reflexivity.
  - vm_compute. discriminate.
  - reflexivity.
Defined.

(** With a maximum packet size below 14 nothing is ever reassembled across
    transfers: starting from an empty buffer, the buffer is empty after
    every call, each transfer being dropped or dispatched on its own. *)
Theorem small_packet_size_never_buffers (eth : NIC) (ts : list (list byte)) :
  operational eth = true ->
  buf eth = [] ->
  maxPacketSize eth < 14 ->
  exists eth',
    receive eth ts = Ret eth' /\
    buf eth' = [] /\
    (length (injected eth')
     = length (injected eth)
       + length (filter (fun out => (14 <=? length out)%nat) ts))%nat.
Proof.
  revert eth. induction ts as [|out rest IH]; intros eth Hop Hb Hmps.
  - exists eth. simpl. auto.
  - cbn [receive filter].
    destruct (ECMRx_cases eth out None Hop)
      as [(_ & Hlt & E) | [(Hnd & Hm & E) | (Hnd & _ & l & Hl & E)]];
      rewrite E; cbn [bind].
    + destruct (IH eth Hop Hb Hmps) as (eth' & Er & Hb' & Hn).
      exists eth'. split; [exact Er|]. split; [exact Hb'|].
      destruct (Nat.leb_spec 14 (length out)); [lia | exact Hn].
    + destruct Hnd as [Hne | H14]; [congruence | lia].
    + destruct Hnd as [Hne | H14]; [congruence|].
      destruct (IH (set_buf (set_Link eth
                      (inject l (inbound_packet (buf eth ++ out)))) []))
        as (eth' & Er & Hb' & Hn).
      * apply operational_set_buf; [|auto].
        apply operational_set_Link. exact Hop.
      * reflexivity.
      * exact Hmps.
      * exists eth'. split; [exact Er|]. split; [exact Hb'|].
        apply Nat.leb_le in H14. rewrite H14, Hn.
        unfold injected. cbn [Link set_buf set_Link]. rewrite Hl.
        cbn [inject inbound]. rewrite length_app. cbn [length]. lia.
Qed.

(** Maximum packet size 8: an 8-byte, a 20-byte and a 4-byte transfer. *)
Lemma small_packet_size_never_buffers_witness :
  exists eth',
    receive (nic 8 []) [bytes 8 xff; header_ipv4 ++ bytes 6 xff; bytes 4 xff]
    = Ret eth' /\
    buf eth' = [] /\
    (length (injected eth')
     = length (injected (nic 8 []))
       + length (filter (fun out => (14 <=? length out)%nat)
                  [bytes 8 xff; header_ipv4 ++ bytes 6 xff; bytes 4 xff]))%nat.
Proof.
  apply (small_packet_size_never_buffers (nic 8 [])
           [bytes 8 xff; header_ipv4 ++ bytes 6 xff; bytes 4 xff]).
  - reflexivity.
  - reflexivity.
  - vm_compute. reflexivity.
Defined.

(** ** No byte is altered, reordered or invented *)

(** Over any sequence of calls on a NIC in service, the bytes of the newly
    injected packets, in order, followed by the bytes left in the buffer,
    are the bytes held at the start followed by the received chunks, except
    for chunks that were dropped; only chunks shorter than 14 bytes are
    ever dropped. *)
Theorem receive_conserves_bytes (eth : NIC) (ts : list (list byte)) :
  operational eth = true ->
  exists eth' new ks,
    receive eth ts = Ret eth' /\
    injected eth' = injected eth ++ new /\
    without_short ts ks /\
    concat (map packet_bytes new) ++ buf eth' = buf eth ++ concat ks.
Proof.
  revert eth. induction ts as [|out rest IH]; intros eth Hop.
  - exists eth, [], []. simpl. rewrite !app_nil_r.
    repeat split. constructor.
  - cbn [receive].
    destruct (ECMRx_cases eth out None Hop)
      as [(_ & Hlt & E) | [(Hnd & Hm & E) | (Hnd & _ & l & Hl & E)]];
      rewrite E; cbn [bind].
    + destruct (IH eth Hop) as (eth' & new & ks & Er & Hi & Hk & Hc).
      exists eth', new, ks. repeat split; try assumption.
      constructor; assumption.
    + destruct (IH (set_buf eth (buf eth ++ out)))
        as (eth' & new & ks & Er & Hi & Hk & Hc).
      * apply operational_set_buf; [exact Hop|].
        right. auto using accumulated_header.
      * exists eth', new, (out :: ks). repeat split; try assumption.
        -- constructor; assumption.
        -- rewrite Hc. simpl. rewrite <- app_assoc. reflexivity.
    + destruct (IH (set_buf (set_Link eth
                      (inject l (inbound_packet (buf eth ++ out)))) []))
        as (eth' & new & ks & Er & Hi & Hk & Hc).
      * apply operational_set_buf; [|auto].
        apply operational_set_Link. exact Hop.
      * exists eth', (inbound_packet (buf eth ++ out) :: new), (out :: ks).
        split; [exact Er|]. split; [|split].
        -- rewrite Hi. unfold injected. simpl. rewrite Hl.
           rewrite <- app_assoc. reflexivity.
        -- constructor; assumption.
        -- cbn [map concat]. rewrite packet_bytes_inbound_packet.
           rewrite <- !app_assoc. f_equal. f_equal.
           simpl in Hc. exact Hc.
Qed.

(** A stray 3-byte transfer, a 20-byte frame as 16 + 4 bytes and the first
    16 bytes of a second frame. *)
Lemma receive_conserves_bytes_witness :
  exists eth' new ks,
    receive (nic 16 [])
      [[x01; x02; x03]; header_ipv4 ++ [x01; x02]; bytes 4 xff;
       header_ipv4 ++ [x03; x04]] = Ret eth' /\
    injected eth' = injected (nic 16 []) ++ new /\
    without_short
      [[x01; x02; x03]; header_ipv4 ++ [x01; x02]; bytes 4 xff;
       header_ipv4 ++ [x03; x04]] ks /\
    concat (map packet_bytes new) ++ buf eth'
    = buf (nic 16 []) ++ concat ks.
Proof.
  apply (receive_conserves_bytes (nic 16 [])
           [[x01; x02; x03]; header_ipv4 ++ [x01; x02]; bytes 4 xff;
            header_ipv4 ++ [x03; x04]]).
  reflexivity.
Defined.

(** ** Draining the outbound queue *)

Lemma outbound_frame_length (eth : NIC) (pkt : PacketBuffer) :
  operational eth = true ->
  length (outbound_frame eth pkt)
  = (14 + length (concat (AsSlices pkt)))%nat.
Proof.
  intros Hop. destruct (operational_MACs eth Hop) as [Hh Hd].
  unfold outbound_frame. rewrite !length_app, Hh, Hd. simpl. lia.
Qed.

(** On a NIC in service, the result of [ECMTx] is empty exactly when no
    packet is pending: a packet that is read always yields at least its
    14-byte header, even when it carries no data. *)
Theorem ECMTx_empty_iff_idle (eth : NIC) (inp : list byte) (lastErr : error) :
  operational eth = true ->
  exists eth' frame,
    ECMTx eth inp lastErr = Ret (eth', (frame, None)) /\
    (frame = [] <-> pending eth = []) /\
    (frame = [] \/ (14 <= length frame)%nat).
Proof.
  intros Hop. destruct (operational_Link eth Hop) as [l Hl].
  rewrite (ECMTx_unfold eth l inp lastErr Hl).
  unfold pending. rewrite Hl.
  destruct (q l) as [|pkt rest].
  - eexists. eexists. split; [reflexivity|]. split; [tauto | auto].
  - eexists. eexists. split; [reflexivity|].
    pose proof (outbound_frame_length eth pkt Hop) as Hlen.
    unfold outbound_frame in Hlen.
    split; [|right; lia].
    split; intros H; [|discriminate].
    rewrite H in Hlen. simpl in Hlen. lia.
Qed.

(** A pending packet without any data still yields a 14-byte frame. *)
Lemma ECMTx_empty_iff_idle_witness :
  exists eth' frame,
    ECMTx (nic 512 [outbound 2048 []]) [] None
    = Ret (eth', (frame, None)) /\
    (frame = [] <-> pending (nic 512 [outbound 2048 []]) = []) /\
    (frame = [] \/ (14 <= length frame)%nat).
Proof.
  apply (ECMTx_empty_iff_idle (nic 512 [outbound 2048 []]) [] None).
  reflexivity.
Defined.

Lemma transmit_idle (eth : NIC) (l : Endpoint) (k : nat) :
  Link eth = Some l ->
  q l = [] ->
  transmit eth k = Ret (eth, repeat [] k).
Proof.
  intros Hl Hq. induction k as [|k IH]; [reflexivity|].
  cbn [transmit]. rewrite (ECMTx_unfold eth l [] None Hl), Hq.
  cbn [bind]. rewrite (set_Link_same eth l Hl), IH. reflexivity.
Qed.

(** Polling the IN endpoint as many times as there are pending packets
    returns their frames in the order in which the stack queued them and
    empties the queue; every further poll returns an empty result.  The
    reassembly side of the NIC is not affected. *)
Theorem transmit_drains_queue_in_order (eth : NIC) (l : Endpoint) (k : nat) :
  Link eth = Some l ->
  transmit eth (length (q l) + k)
  = Ret (set_Link eth {| inbound := inbound l; q := [] |},
         map (outbound_frame eth) (q l) ++ repeat [] k).
Proof.
  destruct l as [inb queue]. cbn [q inbound].
  revert eth inb. induction queue as [|pkt rest IH]; intros eth inb Hl.
  - cbn [length Nat.add map app].
    rewrite (transmit_idle eth {| inbound := inb; q := [] |} k Hl eq_refl).
    rewrite (set_Link_same eth _ Hl). reflexivity.
  - cbn [length Nat.add transmit map app].
    rewrite (ECMTx_unfold eth _ [] None Hl). cbn [q inbound bind].
    rewrite (IH (set_Link eth {| inbound := inb; q := rest |}) inb)
      by reflexivity.
    cbn [bind]. reflexivity.
Qed.

(** Two pending packets and three polls. *)
Lemma transmit_drains_queue_in_order_witness :
  transmit (nic 512 [outbound 2048 [[x01]]; outbound 2054 [[x02]; [x03]]])
    (length (q {| inbound := [];
                  q := [outbound 2048 [[x01]];
                        outbound 2054 [[x02]; [x03]]] |}) + 1)
  = Ret (set_Link
           (nic 512 [outbound 2048 [[x01]]; outbound 2054 [[x02]; [x03]]])
           {| inbound := []; q := [] |},
         map (outbound_frame
                (nic 512 [outbound 2048 [[x01]];
                          outbound 2054 [[x02]; [x03]]]))
           [outbound 2048 [[x01]]; outbound 2054 [[x02]; [x03]]]
         ++ repeat [] 1).
Proof.
  apply (transmit_drains_queue_in_order
           (nic 512 [outbound 2048 [[x01]]; outbound 2054 [[x02]; [x03]]])
           {| inbound := [];
              q := [outbound 2048 [[x01]]; outbound 2054 [[x02]; [x03]]] |}
           1).
  reflexivity.
Defined.

(** ** Invariants of an initialised interface *)

(** In every state that an initialised NIC goes through (calls of the
    endpoint functions and packets queued by the stack, in any order) the
    link endpoint is present, both MAC addresses are 6 bytes long, the
    maximum packet size is a 16-bit value and the reassembly buffer is empty
    or holds at least a 14-byte header. *)
Theorem reachable_invariants (eth : NIC) :
  reachable eth ->
  (exists l, Link eth = Some l) /\
  length (HostMAC eth) = 6%nat /\
  length (DeviceMAC eth) = 6%nat /\
  0 <= maxPacketSize eth < 65536 /\
  (buf eth = [] \/ (14 <= length (buf eth))%nat).
Proof.
  intros Hr. pose proof (reachable_operational eth Hr) as Hop.
  split; [exact (operational_Link eth Hop)|].
  destruct (operational_MACs eth Hop) as [Hh Hd].
  split; [exact Hh|]. split; [exact Hd|]. split.
  - clear Hop Hh Hd.
    induction Hr as [mps eth0 eth Hb Hi
                    | eth eth' out e r _ IH Hrx
                    | eth eth' inp e r _ IH Htx
                    | eth l pkt _ IH Hl].
    + unfold Init in Hi.
      destruct (Link eth0); [|discriminate].
      destruct (negb (length (HostMAC eth0) =? 6)%nat
                || negb (length (DeviceMAC eth0) =? 6)%nat); [discriminate|].
      injection Hi as <-. cbn [maxPacketSize addDataInterfaces
                                 set_maxPacketSize]. unfold uint16.
      apply Z.mod_pos_bound. lia.
    + apply ECMRx_returns in Hrx.
      destruct Hrx as [_ [(_ & _ & ->)
                         | [(_ & _ & ->) | (_ & _ & _ & l & _ & ->)]]];
        exact IH.
    + destruct (Link eth) as [l|] eqn:Hl.
      * rewrite (ECMTx_unfold eth l inp e Hl) in Htx.
        destruct (q l); injection Htx as <- _; exact IH.
      * unfold ECMTx in Htx. rewrite Hl in Htx. discriminate.
    + exact IH.
  - unfold operational in Hop. apply andb_prop in Hop.
    destruct Hop as [_ Hb]. apply orb_prop in Hb.
    destruct Hb as [Hz | Hge].
    + left. apply Nat.eqb_eq in Hz.
      destruct (buf eth); [reflexivity | discriminate].
    + right. apply Nat.leb_le. exact Hge.
Qed.

(** A NIC after [Init], one deferred transfer and one queued packet. *)
Lemma reachable_invariants_witness :
  (exists l,
     Link (set_Link (set_buf (nic 16 []) (header_ipv4 ++ [x01; x02]))
             {| inbound := []; q := [] ++ [outbound 2048 [[x01]]] |})
     = Some l) /\
  length hostMAC = 6%nat /\
  length deviceMAC = 6%nat /\
  0 <= 16 mod 65536 < 65536 /\
  (header_ipv4 ++ [x01; x02] = []
   \/ (14 <= length (header_ipv4 ++ [x01; x02]))%nat).
Proof.
  apply (reachable_invariants
           (set_Link (set_buf (nic 16 []) (header_ipv4 ++ [x01; x02]))
              {| inbound := []; q := [] ++ [outbound 2048 [[x01]]] |})).
  apply (reach_write (set_buf (nic 16 []) (header_ipv4 ++ [x01; x02]))
           {| inbound := []; q := [] |} (outbound 2048 [[x01]]));
    [|reflexivity].
  apply (reach_ECMRx (nic 16 []) _ (header_ipv4 ++ [x01; x02]) None
           ([], None)); [|reflexivity].
  apply (reach_Init 16 (new_nic []) (nic 16 [])); reflexivity.
Defined.

(** ** The buffer has no bound *)

(** On any NIC whose maximum packet size is at least 14 and for any bound,
    some sequence of full-size transfers takes the reassembly buffer beyond
    the bound, without any packet being injected: nothing in [ECMRx] limits
    the memory a host can make the device hold. *)
Theorem reassembly_buffer_unbounded (eth : NIC) (bound : nat) :
  14 <= maxPacketSize eth ->
  exists ts eth',
    Forall (fun out => Z.of_nat (length out) = maxPacketSize eth) ts /\
    receive eth ts = Ret eth' /\
    injected eth' = injected eth /\
    (bound < length (buf eth'))%nat.
Proof.
  intros Hmps.
  set (out := bytes (Z.to_nat (maxPacketSize eth)) xff).
  assert (Hout : Z.of_nat (length out) = maxPacketSize eth).
  { unfold out, bytes. rewrite repeat_length. lia. }
  assert (Hall : Forall (fun out => Z.of_nat (length out) = maxPacketSize eth)
                   (repeat out (S bound))).
  { apply Forall_forall. intros x Hin.
    apply repeat_spec in Hin. subst x. exact Hout. }
  exists (repeat out (S bound)).
  exists (set_buf eth (buf eth ++ concat (repeat out (S bound)))).
  split; [exact Hall|]. split.
  - apply receive_deferred; [right; exact Hmps | exact Hall].
  - split; [reflexivity|].
    cbn [buf set_buf]. rewrite length_app, length_concat_repeat. nia.
Qed.

(** Beyond 1514 bytes, an Ethernet frame of [MTU] bytes and its header, at
    the default maximum packet size. *)
Lemma reassembly_buffer_unbounded_witness :
  exists ts eth',
    Forall (fun out => Z.of_nat (length out) = maxPacketSize (nic 512 [])) ts
    /\
    receive (nic 512 []) ts = Ret eth' /\
    injected eth' = injected (nic 512 []) /\
    (1514 < length (buf eth'))%nat.
Proof.
  apply (reassembly_buffer_unbounded (nic 512 []) 1514).
  vm_compute. discriminate.
Defined.

(** * Addresses and sockets *)

Section RuntimeProperties.

Variable SplitHostPort : string -> string * string * error.
Variable Atoi : string -> Z * error.
Variable IPv4 : string -> list byte.
Variables AF_INET SOCK_DGRAM SOCK_STREAM : Z.

(** [fullAddr] rejects an address only for a port that [Atoi] rejects, and
    then returns the zero address.  It never rejects a host, and an address
    that [SplitHostPort] cannot split is taken whole as a host, with port
    0.  A returned port is always a 16-bit value: the number that [Atoi]
    read, reduced modulo 65536. *)
Theorem fullAddr_outcomes (a : string) :
  (exists err,
     fullAddr SplitHostPort Atoi IPv4 a = (FullAddress_zero, Some err) /\
     exists host port p,
       SplitHostPort a = (host, port, None) /\ Atoi port = (p, Some err))
  \/ (exists full,
        fullAddr SplitHostPort Atoi IPv4 a = (full, None) /\
        0 <= Port full < 65536 /\
        ((exists host port p,
            SplitHostPort a = (host, port, None) /\ Atoi port = (p, None) /\
            Addr full = IPv4 host /\ Port full = p mod 65536)
         \/ (exists host port err,
               SplitHostPort a = (host, port, Some err) /\
               Addr full = IPv4 a /\ Port full = 0))).
Proof.
  unfold fullAddr.
  destruct (SplitHostPort a) as [[host port] [err|]].
  - right. eexists. split; [reflexivity|]. cbn [Port Addr].
    split; [unfold uint16; apply Z.mod_pos_bound; lia|].
    right. exists host, port, err. auto.
  - destruct (Atoi port) as [p [err|]] eqn:Ha.
    + left. exists err. split; [reflexivity|]. exists host, port, p. auto.
    + right. eexists. split; [reflexivity|]. cbn [Port Addr].
      split; [unfold uint16; apply Z.mod_pos_bound; lia|].
      left. exists host, port, p. auto.
Qed.

Lemma optional_fullAddr_error (addr : option string) (full : FullAddress)
    (err : string) :
  optional_fullAddr SplitHostPort Atoi IPv4 addr = (full, Some err) ->
  exists a,
    addr = Some a /\ snd (fullAddr SplitHostPort Atoi IPv4 a) = Some err.
Proof.
  destruct addr as [a|]; simpl; intros H.
  - exists a. rewrite H. auto.
  - discriminate.
Qed.

(** [Socket] ends in a call into the stack exactly when both addresses
    parse, the family is [AF_INET] and the network is UDP with a datagram
    socket or TCP with a stream socket.  UDP dials with both addresses (the
    zero address for a nil one); TCP dials the remote address when there is
    one and listens on the local address otherwise. *)
Theorem Socket_reaches_stack_iff (network : string) (family sotype : Z)
    (laddr raddr : option string) (call : StackCall) :
  Socket SplitHostPort Atoi IPv4 AF_INET SOCK_DGRAM SOCK_STREAM
    network family sotype laddr raddr = FromStack call
  <-> exists l r,
        optional_fullAddr SplitHostPort Atoi IPv4 laddr = (l, None) /\
        optional_fullAddr SplitHostPort Atoi IPv4 raddr = (r, None) /\
        family = AF_INET /\
        (((network = "udp" \/ network = "udp4")%string /\
          sotype = SOCK_DGRAM /\ call = DialUDP l r)
         \/ ((network = "tcp" \/ network = "tcp4")%string /\
             sotype = SOCK_STREAM /\
             call = match raddr with
                    | Some _ => DialContextTCP r
                    | None => ListenTCP l
                    end)).
Proof.
  unfold Socket.
  destruct (optional_fullAddr SplitHostPort Atoi IPv4 laddr) as [l [le|]].
  { split; [discriminate | intros (l' & r' & H & _); discriminate]. }
  destruct (optional_fullAddr SplitHostPort Atoi IPv4 raddr) as [r [re|]].
  { split; [discriminate | intros (l' & r' & _ & H & _); discriminate]. }
  destruct (Z.eqb_spec family AF_INET) as [Hf|Hf]; cbn [negb].
  2:{ split; [discriminate | intros (l' & r' & _ & _ & H & _); contradiction]. }
  destruct (String.eqb_spec network "udp") as [Hu|Hu];
    destruct (String.eqb_spec network "udp4") as [Hu4|Hu4]; cbn [orb];
    try (subst network; discriminate).
  - destruct (Z.eqb_spec sotype SOCK_DGRAM) as [Hs|Hs]; cbn [negb]; split.
    + intros H. injection H as <-. exists l, r. repeat split; auto.
    + intros (l' & r' & Hl & Hr & _ & [(_ & _ & ->) | ([Ht|Ht] & _)]).
      * injection Hl as <-. injection Hr as <-. reflexivity.
      * subst network. discriminate.
      * subst network. discriminate.
    + discriminate.
    + intros (l' & r' & _ & _ & _ & [(_ & H & _) | ([Ht|Ht] & _)]).
      * contradiction.
      * subst network. discriminate.
      * subst network. discriminate.
  - destruct (Z.eqb_spec sotype SOCK_DGRAM) as [Hs|Hs]; cbn [negb]; split.
    + intros H. injection H as <-. exists l, r. repeat split; auto.
    + intros (l' & r' & Hl & Hr & _ & [(_ & _ & ->) | ([Ht|Ht] & _)]).
      * injection Hl as <-. injection Hr as <-. reflexivity.
      * subst network. discriminate.
      * subst network. discriminate.
    + discriminate.
    + intros (l' & r' & _ & _ & _ & [(_ & H & _) | ([Ht|Ht] & _)]).
      * contradiction.
      * subst network. discriminate.
      * subst network. discriminate.
  - destruct (String.eqb_spec network "tcp") as [Ht|Ht];
      destruct (String.eqb_spec network "tcp4") as [Ht4|Ht4]; cbn [orb];
      try (subst network; discriminate).
    + destruct (Z.eqb_spec sotype SOCK_STREAM) as [Hs|Hs]; cbn [negb]; split.
      * intros H. exists l, r. repeat split; auto. right.
        repeat split; auto. destruct raddr; injection H as <-; reflexivity.
      * intros (l' & r' & Hl & Hr & _ & [([Hx|Hx] & _) | (_ & _ & ->)]);
          try contradiction.
        injection Hl as <-. injection Hr as <-. destruct raddr; reflexivity.
      * discriminate.
      * intros (l' & r' & _ & _ & _ & [([Hx|Hx] & _) | (_ & H & _)]);
          contradiction.
    + destruct (Z.eqb_spec sotype SOCK_STREAM) as [Hs|Hs]; cbn [negb]; split.
      * intros H. exists l, r. repeat split; auto. right.
        repeat split; auto. destruct raddr; injection H as <-; reflexivity.
      * intros (l' & r' & Hl & Hr & _ & [([Hx|Hx] & _) | (_ & _ & ->)]);
          try contradiction.
        injection Hl as <-. injection Hr as <-. destruct raddr; reflexivity.
      * discriminate.
      * intros (l' & r' & _ & _ & _ & [([Hx|Hx] & _) | (_ & H & _)]);
          contradiction.
    + split; [discriminate|].
      intros (l' & r' & _ & _ & _ & [([Hx|Hx] & _) | ([Hx|Hx] & _)]);
        contradiction.
Qed.

(** An address that does not parse fails the call with the error of
    [fullAddr], before the family, the network and the socket type are
    looked at: the local address first, then the remote one.  This holds
    even for a TCP dial, which does not use the local address. *)
Theorem Socket_address_error_first (network : string) (family sotype : Z)
    (laddr raddr : option string) (a : string) (err : string) :
  (laddr = Some a /\ snd (fullAddr SplitHostPort Atoi IPv4 a) = Some err)
  \/ (snd (optional_fullAddr SplitHostPort Atoi IPv4 laddr) = None /\
      raddr = Some a /\
      snd (fullAddr SplitHostPort Atoi IPv4 a) = Some err) ->
  Socket SplitHostPort Atoi IPv4 AF_INET SOCK_DGRAM SOCK_STREAM
    network family sotype laddr raddr = SocketError err.
Proof.
  unfold Socket.
  intros [(-> & He) | (Hl & -> & He)].
  - cbn [optional_fullAddr].
    destruct (fullAddr SplitHostPort Atoi IPv4 a) as [l le].
    cbn [snd] in He. subst le. reflexivity.
  - destruct (optional_fullAddr SplitHostPort Atoi IPv4 laddr) as [l le].
    cbn [snd] in Hl. subst le.
    cbn [optional_fullAddr].
    destruct (fullAddr SplitHostPort Atoi IPv4 a) as [r re].
    cbn [snd] in He. subst re. reflexivity.
Qed.

End RuntimeProperties.

(** A TCP dial to a good remote address with a local address whose port is
    not a number, on a family that is not even supported. *)
Lemma Socket_address_error_first_witness :
  Socket toy_SplitHostPort toy_Atoi toy_IPv4 2 2 1
    "tcp" 10 1 (Some "10.0.0.1:http"%string) (Some "10.0.0.1:80"%string)
  = SocketError "invalid syntax".
Proof.
  apply (Socket_address_error_first toy_SplitHostPort toy_Atoi toy_IPv4 2 2 1
           "tcp" 10 1 (Some "10.0.0.1:http"%string)
           (Some "10.0.0.1:80"%string) "10.0.0.1:http" "invalid syntax").
  left. split; reflexivity.
Defined.
